(** * Docstring benchmark pipeline: extraction, removal and symbol matching

    A shallow embedding of [symbol_extractor.py], [docstring_remover.py]
    and the matcher of [similarity_checker.py], with the properties the
    specification states about them. *)

From Stdlib Require Import QArith Ascii String.
From stdpp Require Import base strings list gmap.

Local Open Scope string_scope.
Local Open Scope list_scope.

(** ** Syntax trees

    The part of Python's [ast] the two visitors can tell apart.  A
    statement is an expression statement, one of the three declaration
    kinds, a compound statement ([If], [For], [While], [With], [Try],
    [Match]: its statement blocks in field order, handler and case bodies
    included), or a statement without nested statements.  Expressions hold
    no statements, so the expression fields of a node (decorators,
    arguments, bases, tests) are never changed or read by either visitor
    and are left out. *)

Inductive constant : Type :=
| CStr (s : string)
| CBytes (b : string)
| CNum (n : Z)
| CBool (b : bool)
| CNone
| CEllipsis.

Inductive expr : Type :=
| Constant (value : constant)
| OtherExpr (src : string).

#[warnings="-register-all"]
Inductive stmt : Type :=
| Expr (value : expr)
| FunctionDef (name : string) (body : list stmt)
| AsyncFunctionDef (name : string) (body : list stmt)
| ClassDef (name : string) (body : list stmt)
| Compound (kind : string) (blocks : list (list stmt))
| Simple (src : string).

Record Module_ : Type := mkModule { body : list stmt }.

(** Induction on statements that reaches the statements nested in bodies
    and blocks. *)
Section stmt_nested_ind.
Variable P : stmt → Prop.
Hypothesis HExpr : ∀ value, P (Expr value).
Hypothesis HFunctionDef :
  ∀ name body, Forall P body → P (FunctionDef name body).
Hypothesis HAsyncFunctionDef :
  ∀ name body, Forall P body → P (AsyncFunctionDef name body).
Hypothesis HClassDef :
  ∀ name body, Forall P body → P (ClassDef name body).
Hypothesis HCompound :
  ∀ kind blocks, Forall (Forall P) blocks → P (Compound kind blocks).
Hypothesis HSimple : ∀ src, P (Simple src).

Fixpoint stmt_nested_ind (s : stmt) : P s :=
  let on_body :=
    fix on_body (l : list stmt) : Forall P l :=
      match l with
      | [] => @List.Forall_nil _ P
      | x :: l' => @List.Forall_cons _ P x l' (stmt_nested_ind x) (on_body l')
      end in
  match s with
  | Expr value => HExpr value
  | FunctionDef name b => HFunctionDef name b (on_body b)
  | AsyncFunctionDef name b => HAsyncFunctionDef name b (on_body b)
  | ClassDef name b => HClassDef name b (on_body b)
  | Compound kind blocks =>
      HCompound kind blocks
        ((fix on_blocks (bs : list (list stmt)) : Forall (Forall P) bs :=
            match bs with
            | [] => @List.Forall_nil _ (Forall P)
            | b :: bs' =>
                @List.Forall_cons _ (Forall P) b bs' (on_body b) (on_blocks bs')
            end) blocks)
  | Simple src => HSimple src
  end.
End stmt_nested_ind.

(** The test both visitors make on a body:
    [node.body and isinstance(node.body[0], ast.Expr) and
     isinstance(node.body[0].value, ast.Constant) and
     isinstance(node.body[0].value.value, str)]. *)
Definition is_str_expr (s : stmt) : bool :=
  match s with
  | Expr (Constant (CStr _)) => true
  | _ => false
  end.

Definition has_docstring (b : list stmt) : bool :=
  match b with
  | s :: _ => is_str_expr s
  | [] => false
  end.

(** ** docstring_remover.py *)

Module DocstringRemover.

(** [node.body = node.body[1:]] under the docstring test. *)
Definition drop_docstring (b : list stmt) : list stmt :=
  match b with
  | Expr (Constant (CStr _)) :: rest => rest
  | _ => b
  end.

(** [NodeTransformer.visit]: the three declaration visitors drop the
    docstring and then call [generic_visit], which visits every child
    statement and keeps what the visit returns (always the node itself
    here); any other node goes to [generic_visit] directly. *)
Fixpoint visit (node : stmt) : stmt :=
  match node with
  | ClassDef name b => ClassDef name (map visit (drop_docstring b))
  | FunctionDef name b => FunctionDef name (map visit (drop_docstring b))
  | AsyncFunctionDef name b =>
      AsyncFunctionDef name (map visit (drop_docstring b))
  | Compound kind blocks => Compound kind (map (map visit) blocks)
  | Expr value => Expr value
  | Simple src => Simple src
  end.

Definition visit_Module (node : Module_) : Module_ :=
  mkModule (map visit (drop_docstring (body node))).

End DocstringRemover.

(** ** symbol_extractor.py *)

Module SymbolExtractor.

(** [s.endswith(suffix)] *)
Definition endswith (s suffix : string) : bool :=
  bool_decide (String.length suffix ≤ String.length s)%nat &&
  String.eqb
    (String.substring (String.length s - String.length suffix)
               (String.length suffix) s)
    suffix.

(** [s[:-n]] for a positive [n] *)
Definition drop_last (n : nat) (s : string) : string :=
  String.substring 0 (String.length s - n) s.

(** [s.replace(old, new)] for a one-character [old], which is what
    [os.sep] is. *)
Fixpoint replace (old : ascii) (new : string) (s : string) : string :=
  match s with
  | EmptyString => EmptyString
  | String c s' =>
      if Ascii.eqb c old then new +:+ replace old new s'
      else String c (replace old new s')
  end.

Definition os_sep : ascii := "/"%char.

Section Extractor.
(** [os.path.relpath] is the host library's. *)
Variable os_path_relpath : string → string → string.

Variable base_path : string.

Definition _get_module_name (file_path : string) : string :=
  let rel_path := os_path_relpath file_path base_path in
  let rel_path :=
    if endswith rel_path ".py" then drop_last 3 rel_path else rel_path in
  let module_name := replace os_sep "." rel_path in
  let module_name :=
    if endswith module_name ".__init__" then drop_last 9 module_name
    else module_name in
  module_name.
End Extractor.

(** The docstring test followed by [self.symbols[fqn] = docstring]. *)
Definition record_docstring (fqn : string) (b : list stmt)
    (symbols : gmap string string) : gmap string string :=
  match b with
  | Expr (Constant (CStr docstring)) :: _ => <[fqn := docstring]> symbols
  | _ => symbols
  end.

(** [NodeVisitor.visit] with [self.symbols] threaded through.
    [self.current_module] is set once in [__init__] and only read
    afterwards, so it is a parameter here. *)
Fixpoint visit (current_module : string) (node : stmt)
    (symbols : gmap string string) : gmap string string :=
  let generic_visit :=
    foldl (λ acc child, visit current_module child acc) in
  match node with
  | ClassDef name b =>
      let class_fqn := current_module +:+ "." +:+ name in
      generic_visit (record_docstring class_fqn b symbols) b
  | FunctionDef name b =>
      let function_fqn := current_module +:+ "." +:+ name in
      generic_visit (record_docstring function_fqn b symbols) b
  | AsyncFunctionDef name b =>
      let function_fqn := current_module +:+ "." +:+ name in
      generic_visit (record_docstring function_fqn b symbols) b
  | Compound _ blocks => foldl generic_visit symbols blocks
  | Expr _ => symbols
  | Simple _ => symbols
  end.

Definition generic_visit (current_module : string)
    (symbols : gmap string string) (b : list stmt) : gmap string string :=
  foldl (λ acc child, visit current_module child acc) symbols b.

Definition visit_Module (current_module : string) (node : Module_)
    (symbols : gmap string string) : gmap string string :=
  generic_visit current_module
    (record_docstring current_module (body node) symbols) (body node).

(** What [extractor.symbols] holds after [extractor.visit(tree)] on a
    fresh extractor. *)
Definition extract (current_module : string) (tree : Module_)
    : gmap string string :=
  visit_Module current_module tree ∅.

End SymbolExtractor.

(** ** The per-project driver of symbol_extractor.py *)

Module Project.
Import SymbolExtractor.

(** What the driver prints for a file. *)
Inductive message : Type :=
| Processed (file_path : string)
| Failed (file_path : string).

Record run_state : Type :=
  RunState { all_symbols : gmap string string; printed : list message }.

Section Driver.
(** The host library and the file system: [os.path.relpath],
    [os.path.join], and reading a file followed by [ast.parse], which
    is [None] when [open], [read] or [ast.parse] raises. *)
Variable os_path_relpath : string → string → string.
Variable os_path_join : string → string → string.
Variable read_and_parse : string → option Module_.

(** [None]: the call raises. *)
Definition extract_symbols_from_file (file_path base_path : string)
    : option (gmap string string) :=
  tree ← read_and_parse file_path;
  Some (extract (_get_module_name os_path_relpath base_path file_path)
                tree).

(** The body of the inner loop: the [.py] filter and the
    [try]/[except Exception].  [all_symbols.update(symbols)] lets the
    new entries win. *)
Definition process_file (project_path root : string) (st : run_state)
    (file : string) : run_state :=
  if endswith file ".py" then
    let file_path := os_path_join root file in
    match extract_symbols_from_file file_path project_path with
    | Some symbols =>
        RunState (symbols ∪ all_symbols st)
                 (printed st ++ [Processed file_path])
    | None =>
        RunState (all_symbols st) (printed st ++ [Failed file_path])
    end
  else st.

(** The two nested loops over what [os.walk(project_path)] yields,
    given as the (root, files) pairs in walk order. *)
Definition walk_from (project_path : string)
    (os_walk : list (string * list string)) (st : run_state)
    : run_state :=
  foldl (λ st rf, foldl (process_file project_path rf.1) st rf.2)
        st os_walk.

Definition extract_symbols_from_project (project_path : string)
    (os_walk : list (string * list string)) : gmap string string :=
  all_symbols (walk_from project_path os_walk (RunState ∅ [])).
End Driver.

End Project.

(** ** similarity_checker.py: similarity and matching *)

Module SimilarityChecker.

(** A [Dict[str, str]] in iteration (insertion) order; its keys are
    distinct. *)
Definition dict : Type := list (string * string).

Definition keys (d : dict) : list string := d.*1.

Definition dict_wf (d : dict) : Prop := NoDup (keys d).

(** [d[k]], [None] when [k not in d]. *)
Fixpoint dict_get (d : dict) (k : string) : option string :=
  match d with
  | [] => None
  | (k', v) :: d' => if String.eqb k k' then Some v else dict_get d' k
  end.

(** [s.split(sep)] for a one-character separator. *)
Fixpoint split (sep : ascii) (s : string) : list string :=
  match s with
  | EmptyString => [EmptyString]
  | String c s' =>
      if Ascii.eqb c sep then EmptyString :: split sep s'
      else match split sep s' with
           | h :: t => String c h :: t
           | [] => [String c EmptyString]
           end
  end.

(** [key.split('.')[-1]] *)
Definition suffix_of (key : string) : string :=
  default EmptyString (last (split "."%char key)).

Record MatchResult : Type := mkMatchResult {
  summary_symbol : string;
  docstring_symbol : string;
  similarity : Q;
  summary_description : string;
  docstring_description : string
}.

(** [a > b] on scores *)
Definition Qgtb (a b : Q) : bool := negb (Qle_bool a b).

(** The state of the suffix scan: [best_match] ([None] is Python's
    [None]), [best_similarity], [best_docstring_desc]. *)
Record best : Type := mkBest {
  best_match : option string;
  best_similarity : Q;
  best_docstring_desc : string
}.

(** [if best_match:] is false for [None] and for the empty string. *)
Definition truthy (m : option string) : bool :=
  match m with
  | Some k => negb (String.eqb k EmptyString)
  | None => false
  end.

Section Matcher.
(** scikit-learn's part of [calculate_similarity]:
    [TfidfVectorizer(stop_words='english', max_features=100)
       .fit_transform([text1, text2])] and then
    [cosine_similarity(m[0:1], m[1:2])[0][0]]; [None] when it raises.
    Scores are the rationals standing for the floats: only their
    order is used. *)
Variable tfidf_cosine : string → string → option Q.

(** [try: body except: return handler] *)
Definition try_except {A} (body : option A) (handler : A) : option A :=
  match body with
  | Some a => Some a
  | None => Some handler
  end.

(** [None]: the call raises. *)
Definition calculate_similarity (text1 text2 : string) : option Q :=
  if String.eqb text1 EmptyString || String.eqb text2 EmptyString
  then Some 0%Q
  else try_except (tfidf_cosine text1 text2) 0%Q.

(** One turn of the loop over [docstrings_data.items()]. *)
Definition scan_step (summary_suffix summary_desc : string) (st : best)
    (item : string * string) : option best :=
  let '(docstring_key, docstring_desc) := item in
  let docstring_suffix := suffix_of docstring_key in
  if String.eqb summary_suffix docstring_suffix then
    similarity ← calculate_similarity summary_desc docstring_desc;
    if Qgtb similarity (best_similarity st) then
      Some (mkBest (Some docstring_key) similarity docstring_desc)
    else Some st
  else Some st.

Fixpoint scan (summary_suffix summary_desc : string) (st : best)
    (items : dict) : option best :=
  match items with
  | [] => Some st
  | item :: items' =>
      st' ← scan_step summary_suffix summary_desc st item;
      scan summary_suffix summary_desc st' items'
  end.

(** The result appended for one entry of [summary_data]. *)
Definition match_entry (docstrings_data : dict)
    (entry : string * string) : option MatchResult :=
  let '(summary_key, summary_desc) := entry in
  match dict_get docstrings_data summary_key with
  | Some docstring_desc =>
      similarity ← calculate_similarity summary_desc docstring_desc;
      Some (mkMatchResult summary_key summary_key similarity
                          summary_desc docstring_desc)
  | None =>
      let summary_suffix := suffix_of summary_key in
      st ← scan summary_suffix summary_desc (mkBest None 0%Q EmptyString)
             docstrings_data;
      if truthy (best_match st) then
        Some (mkMatchResult summary_key (default EmptyString (best_match st))
                            (best_similarity st) summary_desc
                            (best_docstring_desc st))
      else
        Some (mkMatchResult summary_key "NO_MATCH" 0%Q summary_desc
                            EmptyString)
  end.

Fixpoint match_loop (docstrings_data : dict) (entries : dict)
    (results : list MatchResult) : option (list MatchResult) :=
  match entries with
  | [] => Some results
  | entry :: entries' =>
      r ← match_entry docstrings_data entry;
      match_loop docstrings_data entries' (results ++ [r])
  end.

Definition match_symbols (summary_data docstrings_data : dict)
    : option (list MatchResult) :=
  match_loop docstrings_data summary_data [].

(** The score [calculate_similarity] returns, for use in statements. *)
Definition score (text1 text2 : string) : Q :=
  default 0%Q (calculate_similarity text1 text2).
End Matcher.

(** The no-match record: ["NO_MATCH"], [0.0] and the empty string. *)
Definition is_sentinel (r : MatchResult) : Prop :=
  docstring_symbol r = "NO_MATCH" ∧ similarity r = 0%Q ∧
  docstring_description r = EmptyString.

(** The entry [k] with text [d] of the target map is a leaf-segment
    candidate for [key]. *)
Definition candidate (docstrings_data : dict) (key k d : string) : Prop :=
  (k, d) ∈ docstrings_data ∧ suffix_of k = suffix_of key.

End SimilarityChecker.

(** ** Shapes of trees

    [all_bodies p] holds of a statement when [p] holds of the body of
    every class, function and async function in it, at any depth. *)

Fixpoint all_bodies (p : list stmt → bool) (s : stmt) : bool :=
  match s with
  | ClassDef _ b | FunctionDef _ b | AsyncFunctionDef _ b =>
      p b && forallb (all_bodies p) b
  | Compound _ blocks => forallb (forallb (all_bodies p)) blocks
  | Expr _ | Simple _ => true
  end.

Definition all_bodies_Module (p : list stmt → bool) (m : Module_) : bool :=
  p (body m) && forallb (all_bodies p) (body m).

(** The body does not open with two string-literal statements in a row. *)
Definition single_docstring (b : list stmt) : bool :=
  match b with
  | s1 :: s2 :: _ => negb (is_str_expr s1 && is_str_expr s2)
  | _ => true
  end.

Definition no_docstring (b : list stmt) : bool := negb (has_docstring b).

Definition nonempty (b : list stmt) : bool :=
  match b with
  | [] => false
  | _ :: _ => true
  end.

(** The names of the declarations in a statement, at any depth. *)
Fixpoint declared_names (s : stmt) : list string :=
  match s with
  | ClassDef name b | FunctionDef name b | AsyncFunctionDef name b =>
      name :: flat_map declared_names b
  | Compound _ blocks => flat_map (flat_map declared_names) blocks
  | Expr _ | Simple _ => []
  end.

(** ** Sample inputs *)

Definition docstring (s : string) : stmt := Expr (Constant (CStr s)).

(** [class C:] with a method [f] that has a docstring. *)
Definition method_in_class : Module_ :=
  mkModule
    [ClassDef "C" [FunctionDef "f" [docstring "doc"; Simple "return 1"]]].

(** A module that opens with two string literals in a row. *)
Definition two_strings : Module_ :=
  mkModule [docstring "first"; docstring "second"; Simple "x = 1"].

(** [def f():] with a docstring as its whole body. *)
Definition docstring_only : Module_ :=
  mkModule [FunctionDef "f" [docstring "doc"]].

(** A documented module with a documented class and method. *)
Definition documented : Module_ :=
  mkModule
    [docstring "module doc";
     ClassDef "C"
       [docstring "class doc";
        FunctionDef "f" [docstring "method doc"; Simple "return 1"];
        Compound "if" [[AsyncFunctionDef "g" [docstring "g doc"]];
                       [Simple "pass"]]]].

(** [os.path.relpath] on a file below the base path, as [os.walk] gives
    them: the part after the base path and one separator. *)
Definition relpath_below (file_path base_path : string) : string :=
  String.substring (String.length base_path + 1)
    (String.length file_path - (String.length base_path + 1)) file_path.

(** A project with a good file, a file that does not parse, and a good
    file in a package. *)
Definition sample_join (root file : string) : string :=
  root +:+ "/" +:+ file.

Definition sample_files (file_path : string) : option Module_ :=
  if String.eqb file_path "p/a.py" then Some documented
  else if String.eqb file_path "p/pkg/__init__.py" then Some method_in_class
  else None.

(** A vectorizer for the examples.  It agrees with scikit-learn on the
    texts used below: two texts of stop words only leave no vocabulary
    and the call raises, equal texts with a retained term have cosine 1,
    texts without a common retained term have cosine 0. *)
Definition sample_cosine (text1 text2 : string) : option Q :=
  if String.eqb text1 "the" && String.eqb text2 "the" then None
  else if String.eqb text1 text2 then Some 1%Q
  else Some 0%Q.

Definition sample_target : SimilarityChecker.dict :=
  [("lib.io.load", "load table"); ("lib.frame.sort", "sort values");
   ("lib.series.sort", "sort values"); ("lib.frame.merge", "merge frames")].

Definition sample_source : SimilarityChecker.dict :=
  [("lib.io.load", "read file"); ("pkg.sort", "sort values");
   ("pkg.merge", "join tables")].

(** The target map of the examples with two entries swapped: the same
    mapping, built in another order. *)
Definition sample_target_reordered : SimilarityChecker.dict :=
  [("lib.io.load", "load table"); ("lib.series.sort", "sort values");
   ("lib.frame.sort", "sort values"); ("lib.frame.merge", "merge frames")].

(** ** The file functions of docstring_remover.py *)

Module RemoverFiles.
Import SymbolExtractor.

(** What [ast.unparse(new_tree)] does: it returns the source text, raises
    [AttributeError] (no [ast.unparse] before Python 3.9), or raises
    something else. *)
Inductive unparse_outcome : Type :=
| Unparsed (source_code : string)
| AttributeError
| OtherError.

Record strip_state : Type :=
  StripState { files : gmap string string;
               printed : list Project.message }.

Section Files.
(** The file system is the map from paths to file contents; reading a
    path outside it raises.  [ast.parse], [ast.unparse] and
    [astor.to_source] are the host's; [None] is a raise. *)
Variable os_path_join : string → string → string.
Variable ast_parse : string → option Module_.
Variable ast_unparse : Module_ → unparse_outcome.
Variable astor_to_source : Module_ → option string.

(** [None]: the call raises. *)
Definition remove_docstrings_from_file (fs : gmap string string)
    (file_path : string) : option string :=
  source_code ← fs !! file_path;
  tree ← ast_parse source_code;
  let new_tree := DocstringRemover.visit_Module tree in
  match ast_unparse new_tree with
  | Unparsed new_source_code => Some new_source_code
  | AttributeError => astor_to_source new_tree
  | OtherError => None
  end.

(** The [try] block: the call, then the write of the new text over the
    file just read, which is taken to succeed; the handler only
    prints. *)
Definition strip_path (st : strip_state) (file_path : string)
    : strip_state :=
  match remove_docstrings_from_file (files st) file_path with
  | Some new_source_code =>
      StripState (<[file_path := new_source_code]> (files st))
                 (printed st ++ [Project.Processed file_path])
  | None =>
      StripState (files st) (printed st ++ [Project.Failed file_path])
  end.

(** The body of the inner loop, with its [.py] filter. *)
Definition strip_file (root : string) (st : strip_state) (file : string)
    : strip_state :=
  if endswith file ".py" then strip_path st (os_path_join root file)
  else st.

(** The loops over what [os.walk(project_path)] yields. *)
Definition strip_walk (os_walk : list (string * list string))
    (st : strip_state) : strip_state :=
  foldl (λ st rf, foldl (strip_file rf.1) st rf.2) st os_walk.

(** The file system after [remove_docstrings_from_project]. *)
Definition remove_docstrings_from_project (fs : gmap string string)
    (os_walk : list (string * list string)) : gmap string string :=
  files (strip_walk os_walk (StripState fs [])).
End Files.

(** The paths the loops touch: the joined paths of the [.py] files. *)
Definition py_paths (os_path_join : string → string → string)
    (os_walk : list (string * list string)) : list string :=
  flat_map (λ rf, map (os_path_join rf.1)
                      (List.filter (λ file, endswith file ".py") rf.2))
           os_walk.

End RemoverFiles.

(** ** The driver, path by path *)

(** The [try] block of [extract_symbols_from_project] for one joined
    path. *)
Definition process_path (os_path_relpath : string → string → string)
    (read_and_parse : string → option Module_) (project_path : string)
    (st : Project.run_state) (file_path : string) : Project.run_state :=
  match Project.extract_symbols_from_file os_path_relpath read_and_parse
          file_path project_path with
  | Some symbols =>
      Project.RunState (symbols ∪ Project.all_symbols st)
        (Project.printed st ++ [Project.Processed file_path])
  | None =>
      Project.RunState (Project.all_symbols st)
        (Project.printed st ++ [Project.Failed file_path])
  end.

(** The line printed for a path. *)
Definition report (os_path_relpath : string → string → string)
    (read_and_parse : string → option Module_) (project_path : string)
    (file_path : string) : Project.message :=
  match Project.extract_symbols_from_file os_path_relpath read_and_parse
          file_path project_path with
  | Some _ => Project.Processed file_path
  | None => Project.Failed file_path
  end.

(** A file system for the examples, with a parser that knows two of its
    texts and a renderer that lists the names a module declares. *)
Definition sample_fs : gmap string string :=
  list_to_map [("p/a.py", "documented"); ("p/bad.py", "def (");
               ("p/notes.txt", "notes"); ("p/b.py", "method_in_class")].

Definition sample_parse (source_code : string) : option Module_ :=
  if String.eqb source_code "documented" then Some documented
  else if String.eqb source_code "method_in_class" then Some method_in_class
  else None.

Definition sample_unparse (tree : Module_) : RemoverFiles.unparse_outcome :=
  RemoverFiles.Unparsed
    (String.concat " " (flat_map declared_names (body tree))).

Definition sample_walk : list (string * list string) :=
  [("p", ["a.py"; "bad.py"; "notes.txt"; "b.py"])].

(** A project in which a module file and a package initializer get the
    same module identifier. *)
Definition sample_read (file_path : string) : option Module_ :=
  sample_fs !! file_path ≫= sample_parse.

Definition collision_walk : list (string * list string) :=
  [("p", ["pkg.py"]); ("p/pkg", ["__init__.py"])].

Definition collision_read (file_path : string) : option Module_ :=
  if String.eqb file_path "p/pkg.py" then Some documented
  else if String.eqb file_path "p/pkg/__init__.py" then Some two_strings
  else None.

(** ** similarity_checker.py: filtering and statistics *)

Module Analysis.
Import SimilarityChecker.

(** [sub in s] *)
Fixpoint contains (sub s : string) : bool :=
  String.prefix sub s ||
  match s with
  | EmptyString => false
  | String _ s' => contains sub s'
  end.

(** The loop copies, in order, the items whose key holds the marker. *)
Definition extract_pandas_symbols (docstrings_data : dict) : dict :=
  List.filter (λ item, contains "pandas.core.methods" item.1)
              docstrings_data.

(** The tests of the three counters of [analyze_results]. *)
Definition is_no_match (r : MatchResult) : bool :=
  String.eqb (docstring_symbol r) "NO_MATCH".

Definition is_exact (r : MatchResult) : bool :=
  String.eqb (summary_symbol r) (docstring_symbol r) &&
  negb (is_no_match r).

Definition is_fuzzy (r : MatchResult) : bool :=
  negb (String.eqb (summary_symbol r) (docstring_symbol r)) &&
  negb (is_no_match r).

(** [np.max] and [np.min] of a list with first element [s]. *)
Definition np_max (s : Q) (rest : list Q) : Q :=
  foldl (λ m x, if Qgtb x m then x else m) s rest.

Definition np_min (s : Q) (rest : list Q) : Q :=
  foldl (λ m x, if Qgtb m x then x else m) s rest.

(** The figures [analyze_results] prints that are counts or elements of
    the list.  The mean and the median, which are float arithmetic, and
    the listing of the five best pairs are not part of the record. *)
Record statistics : Type := mkStatistics {
  total : nat;
  exact_matches : nat;
  fuzzy_matches : nat;
  no_matches : nat;
  max_similarity : Q;
  min_similarity : Q
}.

(** [None]: the function prints that there are no valid similarities and
    returns before any statistics. *)
Definition analyze_results (results : list MatchResult)
    : option statistics :=
  let similarities :=
    map similarity (List.filter (λ r, Qgtb (similarity r) 0%Q) results) in
  match similarities with
  | [] => None
  | s :: rest =>
      Some (mkStatistics
              (length results)
              (length (List.filter is_exact results))
              (length (List.filter is_fuzzy results))
              (length (List.filter is_no_match results))
              (np_max s rest) (np_min s rest))
  end.

End Analysis.

(** The results of the matcher on the examples. *)
Definition sample_results : list SimilarityChecker.MatchResult :=
  [SimilarityChecker.mkMatchResult "lib.io.load" "lib.io.load" 0%Q
     "read file" "load table";
   SimilarityChecker.mkMatchResult "pkg.sort" "lib.frame.sort" 1%Q
     "sort values" "sort values";
   SimilarityChecker.mkMatchResult "pkg.merge" "NO_MATCH" 0%Q
     "join tables" EmptyString].

(** ** main.py: the loop over the projects *)

Module Main.

Record main_state : Type :=
  MainState { fs : gmap string string; all_symbols : gmap string string }.

Section Loop.
(** The host: paths, what [os.walk] yields for a project, parsing and
    unparsing.  Reading a file for extraction is looking its path up in
    the file system and parsing the text. *)
Variable os_path_relpath : string → string → string.
Variable os_path_join : string → string → string.
Variable os_walk : string → list (string * list string).
Variable ast_parse : string → option Module_.
Variable ast_unparse : Module_ → RemoverFiles.unparse_outcome.
Variable astor_to_source : Module_ → option string.

Definition read_and_parse (files : gmap string string)
    (file_path : string) : option Module_ :=
  files !! file_path ≫= ast_parse.

(** The body of the loop of [main]: extract the symbols of the project,
    [all_symbols.update(symbols)], then remove the docstrings of the
    project. *)
Definition main_step (st : main_state) (project_path : string)
    : main_state :=
  let symbols :=
    Project.extract_symbols_from_project os_path_relpath os_path_join
      (read_and_parse (fs st)) project_path (os_walk project_path) in
  MainState
    (RemoverFiles.remove_docstrings_from_project os_path_join ast_parse
       ast_unparse astor_to_source (fs st) (os_walk project_path))
    (symbols ∪ all_symbols st).

(** The file system and the corpus when the loop ends, from the file
    system it starts on. *)
Definition main_loop (project_paths : list string)
    (files : gmap string string) : main_state :=
  foldl main_step (MainState files ∅) project_paths.
End Loop.

End Main.

(** Two projects: the one of [sample_walk] and one with a single file
    that is not in the file system. *)
Definition sample_os_walk (project_path : string)
    : list (string * list string) :=
  if String.eqb project_path "p" then sample_walk
  else if String.eqb project_path "q" then [("q", ["c.py"])]
  else [].

(** ** Declarations in visiting order *)

(** The string literal a body opens with, if it opens with one. *)
Definition docstring_of (b : list stmt) : option string :=
  match b with
  | Expr (Constant (CStr d)) :: _ => Some d
  | _ => None
  end.

(** The declarations of a statement with their bodies, in the depth-first
    pre-order in which [NodeVisitor.generic_visit] reaches them. *)
Fixpoint declarations (s : stmt) : list (string * list stmt) :=
  match s with
  | ClassDef name b | FunctionDef name b | AsyncFunctionDef name b =>
      (name, b) :: flat_map declarations b
  | Compound _ blocks => flat_map (flat_map declarations) blocks
  | Expr _ | Simple _ => []
  end.

(** A module with the same function name defined twice, the second time
    inside a conditional. *)
Definition redefined : Module_ :=
  mkModule
    [docstring "module doc";
     FunctionDef "f" [docstring "first f"; Simple "return 1"];
     ClassDef "C" [Simple "x = 1"];
     Compound "if" [[FunctionDef "f" [docstring "second f"]];
                    [FunctionDef "g" [Simple "pass"]]]].

(** ** The string helpers on small inputs *)

Example suffix_of_dotted :
  SimilarityChecker.suffix_of "pandas.core.methods.describe" = "describe".
Proof. reflexivity. Qed.

Example suffix_of_plain : SimilarityChecker.suffix_of "describe" = "describe".
Proof. reflexivity. Qed.

Example suffix_of_trailing_dot :
  SimilarityChecker.suffix_of "pkg." = EmptyString.
Proof. reflexivity. Qed.

Example split_dots :
  SimilarityChecker.split "."%char "a..b" = ["a"; EmptyString; "b"].
Proof. reflexivity. Qed.

Example endswith_short : SymbolExtractor.endswith "py" ".py" = false.
Proof. reflexivity. Qed.

Example endswith_whole : SymbolExtractor.endswith ".py" ".py" = true.
Proof. reflexivity. Qed.

Example replace_separators :
  SymbolExtractor.replace SymbolExtractor.os_sep "." "a/b/c" = "a.b.c".
Proof. reflexivity. Qed.

(** ** Lemmas on the remover *)

Section RemoverLemmas.
Import DocstringRemover.

Lemma is_str_expr_visit (s : stmt) : is_str_expr (visit s) = is_str_expr s.
Proof. destruct s; reflexivity. Qed.

Lemma has_docstring_map_visit (b : list stmt) :
  has_docstring (map visit b) = has_docstring b.
Proof. destruct b as [|s b]; [reflexivity|]. apply is_str_expr_visit. Qed.

Lemma drop_docstring_cases (b : list stmt) :
  (has_docstring b = false ∧ drop_docstring b = b) ∨
  (∃ s rest, b = s :: rest ∧ is_str_expr s = true ∧
             drop_docstring b = rest).
Proof.
  destruct b as [|s rest]; [left; split; reflexivity|].
  destruct s as [[[]|]| | | | |];
    first [ right; eexists _, _; repeat split; reflexivity
          | left; split; reflexivity ].
Qed.

Lemma drop_docstring_no_docstring (b : list stmt) :
  no_docstring b = true → drop_docstring b = b.
Proof.
  unfold no_docstring. intros H.
  destruct (drop_docstring_cases b) as [[_ ->]|(s & rest & -> & Hs & _)];
    [reflexivity|].
  simpl in H. rewrite Hs in H. discriminate.
Qed.

(** After the drop, a body that held at most one opening string literal
    opens with none. *)
Lemma single_docstring_dropped (b : list stmt) :
  single_docstring b = true → no_docstring (drop_docstring b) = true.
Proof.
  unfold no_docstring. intros H.
  destruct (drop_docstring_cases b) as [[Hn ->]|(s & rest & -> & Hs & ->)].
  - rewrite Hn. reflexivity.
  - destruct rest as [|s2 rest]; [reflexivity|].
    simpl in *. rewrite Hs in H. simpl in H.
    destruct (is_str_expr s2); [discriminate|reflexivity].
Qed.

Lemma forallb_drop_docstring (q : stmt → bool) (b : list stmt) :
  forallb q b = true → forallb q (drop_docstring b) = true.
Proof.
  intros H.
  destruct (drop_docstring_cases b) as [[_ ->]|(s & rest & -> & _ & ->)];
    [exact H|].
  simpl in H. apply andb_prop in H. tauto.
Qed.

Lemma Forall_drop_docstring (Q : stmt → Prop) (b : list stmt) :
  Forall Q b → Forall Q (drop_docstring b).
Proof.
  intros H.
  destruct (drop_docstring_cases b) as [[_ ->]|(s & rest & -> & _ & ->)];
    [exact H|].
  by inversion H.
Qed.

Lemma forallb_map_impl (p q : stmt → bool) (f : stmt → stmt)
    (l : list stmt) :
  Forall (λ s, p s = true → q (f s) = true) l →
  forallb p l = true → forallb q (map f l) = true.
Proof.
  induction 1 as [|s l Hs _ IH]; [reflexivity|].
  simpl. intros H. apply andb_prop in H as [H1 H2].
  rewrite (Hs H1), (IH H2). reflexivity.
Qed.

Lemma map_id_Forall (f : stmt → stmt) (p : stmt → bool) (l : list stmt) :
  Forall (λ s, p s = true → f s = s) l →
  forallb p l = true → map f l = l.
Proof.
  induction 1 as [|s l Hs _ IH]; [reflexivity|].
  simpl. intros H. apply andb_prop in H as [H1 H2].
  rewrite (Hs H1), (IH H2). reflexivity.
Qed.

(** What the remover does to one body. *)
Lemma strip_body_no_docstring (b : list stmt) :
  Forall (λ s, all_bodies single_docstring s = true →
               all_bodies no_docstring (visit s) = true) b →
  single_docstring b && forallb (all_bodies single_docstring) b = true →
  no_docstring (map visit (drop_docstring b)) &&
  forallb (all_bodies no_docstring) (map visit (drop_docstring b)) = true.
Proof.
  intros IH H. apply andb_prop in H as [H1 H2].
  apply andb_true_intro. split.
  - unfold no_docstring. rewrite has_docstring_map_visit.
    apply (single_docstring_dropped b H1).
  - apply (forallb_map_impl (all_bodies single_docstring)).
    + by apply Forall_drop_docstring.
    + by apply forallb_drop_docstring.
Qed.

Lemma visit_no_docstring (s : stmt) :
  all_bodies single_docstring s = true →
  all_bodies no_docstring (visit s) = true.
Proof.
  induction s as [v|name b IH|name b IH|name b IH|kind blocks IH|src]
    using stmt_nested_ind; simpl; try reflexivity;
    try (by apply strip_body_no_docstring).
  induction IH as [|b blocks Hb _ IHblocks]; [reflexivity|].
  simpl. intros H. apply andb_prop in H as [H1 H2].
  rewrite (IHblocks H2), andb_true_r.
  by apply (forallb_map_impl (all_bodies single_docstring)).
Qed.

Lemma visit_Module_no_docstring (m : Module_) :
  all_bodies_Module single_docstring m = true →
  all_bodies_Module no_docstring (visit_Module m) = true.
Proof.
  destruct m as [b]. unfold all_bodies_Module, visit_Module. simpl.
  apply strip_body_no_docstring.
  apply Forall_forall. intros s _. apply visit_no_docstring.
Qed.

Lemma strip_body_id (b : list stmt) :
  Forall (λ s, all_bodies no_docstring s = true → visit s = s) b →
  no_docstring b && forallb (all_bodies no_docstring) b = true →
  map visit (drop_docstring b) = b.
Proof.
  intros IH H. apply andb_prop in H as [H1 H2].
  rewrite (drop_docstring_no_docstring b H1).
  by apply (map_id_Forall visit (all_bodies no_docstring)).
Qed.

(** A tree without docstrings is left as it is. *)
Lemma visit_id (s : stmt) :
  all_bodies no_docstring s = true → visit s = s.
Proof.
  induction s as [v|name b IH|name b IH|name b IH|kind blocks IH|src]
    using stmt_nested_ind; simpl; try reflexivity;
    try (intros H; f_equal; by apply strip_body_id).
  intros H. f_equal.
  induction IH as [|b blocks Hb _ IHblocks]; [reflexivity|].
  simpl in *. apply andb_prop in H as [H1 H2].
  rewrite (IHblocks H2). f_equal.
  by apply (map_id_Forall visit (all_bodies no_docstring)).
Qed.

Lemma visit_Module_id (m : Module_) :
  all_bodies_Module no_docstring m = true → visit_Module m = m.
Proof.
  destruct m as [b]. unfold all_bodies_Module, visit_Module. simpl.
  intros H. f_equal. apply strip_body_id; [|exact H].
  apply Forall_forall. intros s _. apply visit_id.
Qed.
End RemoverLemmas.

(** ** Lemmas on the extractor *)

Section ExtractorLemmas.
Import SymbolExtractor.

Lemma record_docstring_no_docstring (fqn : string) (b : list stmt)
    (symbols : gmap string string) :
  no_docstring b = true → record_docstring fqn b symbols = symbols.
Proof.
  unfold no_docstring. destruct b as [|[[[]|]| | | | |] rest];
    simpl; intros H; first [reflexivity | discriminate].
Qed.

Lemma foldl_unchanged {A} (f : A → stmt → A) (p : stmt → bool)
    (l : list stmt) :
  Forall (λ s, p s = true → ∀ acc, f acc s = acc) l →
  forallb p l = true → ∀ acc, foldl f acc l = acc.
Proof.
  induction 1 as [|s l Hs _ IH]; [reflexivity|].
  simpl. intros H acc. apply andb_prop in H as [H1 H2].
  rewrite (Hs H1). by apply IH.
Qed.

Lemma extract_body_unchanged (cm fqn : string) (b : list stmt) :
  Forall (λ s, all_bodies no_docstring s = true →
               ∀ acc, visit cm s acc = acc) b →
  no_docstring b && forallb (all_bodies no_docstring) b = true →
  ∀ symbols,
    foldl (λ acc child, visit cm child acc)
          (record_docstring fqn b symbols) b = symbols.
Proof.
  intros IH H symbols. apply andb_prop in H as [H1 H2].
  rewrite (record_docstring_no_docstring fqn b symbols H1).
  by apply (foldl_unchanged _ (all_bodies no_docstring)).
Qed.

(** Visiting a tree without docstrings records nothing. *)
Lemma visit_unchanged (cm : string) (s : stmt) :
  all_bodies no_docstring s = true →
  ∀ symbols, visit cm s symbols = symbols.
Proof.
  induction s as [v|name b IH|name b IH|name b IH|kind blocks IH|src]
    using stmt_nested_ind; simpl; try reflexivity;
    try (intros H symbols; by apply extract_body_unchanged).
  induction IH as [|b blocks Hb _ IHblocks]; [reflexivity|].
  simpl. intros H symbols. apply andb_prop in H as [H1 H2].
  rewrite (foldl_unchanged _ (all_bodies no_docstring) b Hb H1).
  by apply IHblocks.
Qed.

Lemma extract_no_docstring (cm : string) (m : Module_) :
  all_bodies_Module no_docstring m = true → extract cm m = ∅.
Proof.
  destruct m as [b]. unfold all_bodies_Module, extract, visit_Module,
    generic_visit. simpl. intros H.
  apply extract_body_unchanged; [|exact H].
  apply Forall_forall. intros s _. apply visit_unchanged.
Qed.
End ExtractorLemmas.

(** ** The keys the extractor can record *)

Section ExtractorKeys.
Import SymbolExtractor.
Variable cm : string.

Local Abbreviation from_declaration names k :=
  (∃ n : string, n ∈ names ∧ k = cm +:+ "." +:+ n).

Lemma record_docstring_keys (fqn : string) (b : list stmt)
    (symbols : gmap string string) (k : string) :
  is_Some (record_docstring fqn b symbols !! k) →
  is_Some (symbols !! k) ∨ k = fqn.
Proof.
  destruct b as [|[[[]|]| | | | |] rest]; simpl; auto.
  destruct (decide (fqn = k)) as [->|Hne]; [by right|].
  rewrite lookup_insert_ne by done. by left.
Qed.

Lemma generic_visit_keys (b : list stmt) :
  Forall (λ s, ∀ symbols k,
            is_Some (visit cm s symbols !! k) →
            is_Some (symbols !! k) ∨ from_declaration (declared_names s) k)
         b →
  ∀ symbols k,
    is_Some (foldl (λ acc child, visit cm child acc) symbols b !! k) →
    is_Some (symbols !! k) ∨
    from_declaration (flat_map declared_names b) k.
Proof.
  induction 1 as [|s b Hs _ IH]; intros symbols k; simpl; [by left|].
  intros H. destruct (IH _ _ H) as [H'|(n & Hn & ->)].
  - destruct (Hs _ _ H') as [?|(n & Hn & ->)]; [by left|].
    right. exists n. split; [|done]. apply elem_of_app. by left.
  - right. exists n. split; [|done]. apply elem_of_app. by right.
Qed.

Lemma declaration_keys (name : string) (b : list stmt) :
  Forall (λ s, ∀ symbols k,
            is_Some (visit cm s symbols !! k) →
            is_Some (symbols !! k) ∨ from_declaration (declared_names s) k)
         b →
  ∀ symbols k,
    is_Some (foldl (λ acc child, visit cm child acc)
               (record_docstring (cm +:+ "." +:+ name) b symbols) b !! k) →
    is_Some (symbols !! k) ∨
    from_declaration (name :: flat_map declared_names b) k.
Proof.
  intros IH symbols k H.
  destruct (generic_visit_keys b IH _ _ H) as [H'|(n & Hn & ->)].
  - destruct (record_docstring_keys _ _ _ _ H') as [?| ->]; [by left|].
    right. exists name. split; [|done]. apply elem_of_cons. by left.
  - right. exists n. split; [|done]. apply elem_of_cons. by right.
Qed.

(** A key recorded while visiting a statement is the module identifier,
    a dot and the bare name of a declaration: no enclosing name enters
    it. *)
Lemma visit_keys (s : stmt) :
  ∀ symbols k,
    is_Some (visit cm s symbols !! k) →
    is_Some (symbols !! k) ∨ from_declaration (declared_names s) k.
Proof.
  induction s as [v|name b IH|name b IH|name b IH|kind blocks IH|src]
    using stmt_nested_ind; simpl; auto using declaration_keys.
  induction IH as [|b blocks Hb _ IHblocks]; intros symbols k; simpl;
    [by left|].
  intros H. destruct (IHblocks _ _ H) as [H'|(n & Hn & ->)].
  - destruct (generic_visit_keys b Hb _ _ H') as [?|(n & Hn & ->)];
      [by left|].
    right. exists n. split; [|done]. apply elem_of_app. by left.
  - right. exists n. split; [|done]. apply elem_of_app. by right.
Qed.

Lemma extract_keys (m : Module_) (k : string) :
  is_Some (extract cm m !! k) →
  k = cm ∨ from_declaration (flat_map declared_names (body m)) k.
Proof.
  unfold extract, visit_Module, generic_visit. intros H.
  destruct (generic_visit_keys (body m)
              (proj2 (Forall_forall _ _) (λ s _, visit_keys s)) _ _ H)
    as [H'|?]; [|by right].
  destruct (record_docstring_keys _ _ _ _ H') as [H''| ->]; [|by left].
  rewrite lookup_empty in H''. by destruct H''.
Qed.
End ExtractorKeys.

(** ** Qualified names, extraction and removal *)

(** C1 (the code departs from the claim): for a method [f] with a
    docstring in class [C] of module [m], extraction records the docstring
    under [m.f]; there is no entry under [m.C.f]. *)
Lemma C1_method_key_omits_class :
  SymbolExtractor.extract "m" method_in_class !! "m.C.f" = None ∧
  SymbolExtractor.extract "m" method_in_class !! "m.f" = Some "doc".
Proof. split; vm_compute; reflexivity. Qed.

(** C2, as stated, fails: a module that opens with two string literals has
    an entry under its name before stripping and again after it. *)
Lemma C2_second_literal_reextracted :
  is_Some (SymbolExtractor.extract "m" two_strings !! "m") ∧
  SymbolExtractor.extract "m" (DocstringRemover.visit_Module two_strings)
    !! "m" ≠ None.
Proof. split; vm_compute; [eauto | discriminate]. Qed.

(** C2, amended: when no module, class or function body opens with two
    string literals in a row, extraction after stripping has no entry
    for any qualified name that had one in the first extraction. *)
Theorem C2_extract_strip_extract (cm : string) (tree : Module_) (k : string) :
  all_bodies_Module single_docstring tree = true →
  is_Some (SymbolExtractor.extract cm tree !! k) →
  SymbolExtractor.extract cm (DocstringRemover.visit_Module tree) !! k = None.
Proof.
  intros Hwf _.
  rewrite (extract_no_docstring cm _ (visit_Module_no_docstring tree Hwf)).
  apply lookup_empty.
Qed.

Lemma C2_extract_strip_extract_witness :
  all_bodies_Module single_docstring documented = true ∧
  is_Some (SymbolExtractor.extract "m" documented !! "m.f") ∧
  SymbolExtractor.extract "m" (DocstringRemover.visit_Module documented)
    !! "m.f" = None.
Proof.
  assert (H1 : all_bodies_Module single_docstring documented = true)
    by reflexivity.
  assert (H2 : is_Some (SymbolExtractor.extract "m" documented !! "m.f"))
    by (vm_compute; eauto).
  exact (conj H1 (conj H2
           (C2_extract_strip_extract "m" documented "m.f" H1 H2))).
Defined.

(** C3, as stated, fails: stripping the module that opens with two string
    literals a second time removes the second literal too. *)
Lemma C3_second_strip_changes :
  DocstringRemover.visit_Module (DocstringRemover.visit_Module two_strings)
  ≠ DocstringRemover.visit_Module two_strings.
Proof. vm_compute. discriminate. Qed.

(** C3, amended: when no module, class or function body opens with two
    string literals in a row, stripping the stripped tree gives the
    stripped tree again. *)
Theorem C3_strip_idempotent (tree : Module_) :
  all_bodies_Module single_docstring tree = true →
  DocstringRemover.visit_Module (DocstringRemover.visit_Module tree)
  = DocstringRemover.visit_Module tree.
Proof.
  intros Hwf. apply visit_Module_id. by apply visit_Module_no_docstring.
Qed.

Lemma C3_strip_idempotent_witness :
  all_bodies_Module single_docstring documented = true ∧
  DocstringRemover.visit_Module (DocstringRemover.visit_Module documented)
  = DocstringRemover.visit_Module documented.
Proof.
  assert (H1 : all_bodies_Module single_docstring documented = true)
    by reflexivity.
  exact (conj H1 (C3_strip_idempotent documented H1)).
Defined.

(** C4 (the code departs from the claim): every function body of the
    input holds a statement, and stripping leaves the body of [f] empty;
    no placeholder is put in. *)
Lemma C4_docstring_only_body_left_empty :
  forallb (all_bodies nonempty) (body docstring_only) = true ∧
  DocstringRemover.visit_Module docstring_only
  = mkModule [FunctionDef "f" []] ∧
  forallb (all_bodies nonempty)
    (body (DocstringRemover.visit_Module docstring_only)) = false.
Proof. repeat split. Qed.

(** C10: an initializer directly at the base path gets the module
    identifier [__init__]; the last segment is dropped only from a dotted
    name that ends in [.__init__]. *)
Theorem C10_top_level_initializer
    (os_path_relpath : string → string → string)
    (base_path file_path : string) :
  let rel_path := os_path_relpath file_path base_path in
  let dotted :=
    SymbolExtractor.replace SymbolExtractor.os_sep "."
      (if SymbolExtractor.endswith rel_path ".py"
       then SymbolExtractor.drop_last 3 rel_path else rel_path) in
  (rel_path = "__init__.py" →
   SymbolExtractor._get_module_name os_path_relpath base_path file_path
   = "__init__") ∧
  (SymbolExtractor.endswith dotted ".__init__" = false →
   SymbolExtractor._get_module_name os_path_relpath base_path file_path
   = dotted) ∧
  (SymbolExtractor.endswith dotted ".__init__" = true →
   SymbolExtractor._get_module_name os_path_relpath base_path file_path
   = SymbolExtractor.drop_last 9 dotted).
Proof.
  intros rel_path dotted. unfold SymbolExtractor._get_module_name.
  fold rel_path. fold dotted. repeat split.
  - intros H. subst dotted. rewrite H. vm_compute. reflexivity.
  - intros ->. reflexivity.
  - intros ->. reflexivity.
Qed.

Lemma C10_top_level_initializer_witness :
  relpath_below "projects/flask/__init__.py" "projects/flask" = "__init__.py"
  ∧ SymbolExtractor._get_module_name relpath_below "projects/flask"
      "projects/flask/__init__.py" = "__init__".
Proof.
  assert (H : relpath_below "projects/flask/__init__.py" "projects/flask"
              = "__init__.py") by reflexivity.
  exact (conj H
    (proj1 (C10_top_level_initializer relpath_below "projects/flask"
              "projects/flask/__init__.py") H)).
Defined.

Example module_name_of_file :
  SymbolExtractor._get_module_name relpath_below "projects/flask"
    "projects/flask/src/app.py" = "src.app".
Proof. reflexivity. Qed.

Example module_name_of_package :
  SymbolExtractor._get_module_name relpath_below "projects/flask"
    "projects/flask/src/__init__.py" = "src".
Proof. reflexivity. Qed.

(** ** The per-project driver *)

Section DriverLemmas.
Import Project.
Variable os_path_relpath : string → string → string.
Variable os_path_join : string → string → string.
Variable read_and_parse : string → option Module_.
Variable project_path : string.

Let step := process_file os_path_relpath os_path_join read_and_parse
              project_path.
Let walk := walk_from os_path_relpath os_path_join read_and_parse
              project_path.

(** The corpus after a file depends on the corpus before it only. *)
Lemma process_file_all_symbols (root file : string) (st st' : run_state) :
  all_symbols st = all_symbols st' →
  all_symbols (step root st file) = all_symbols (step root st' file).
Proof using Type.
  intros H. unfold step, process_file.
  destruct (SymbolExtractor.endswith file ".py"); [|exact H].
  destruct (extract_symbols_from_file _ _ _ _); simpl; by rewrite H.
Qed.

Lemma files_all_symbols (root : string) (files : list string)
    (st st' : run_state) :
  all_symbols st = all_symbols st' →
  all_symbols (foldl (step root) st files)
  = all_symbols (foldl (step root) st' files).
Proof using Type.
  revert st st'. induction files as [|file files IH]; intros st st' H;
    [exact H|].
  simpl. apply IH. by apply process_file_all_symbols.
Qed.

Lemma walk_all_symbols (os_walk : list (string * list string))
    (st st' : run_state) :
  all_symbols st = all_symbols st' →
  all_symbols (walk os_walk st) = all_symbols (walk os_walk st').
Proof using Type.
  revert st st'. induction os_walk as [|[root files] os_walk IH];
    intros st st' H; [exact H|].
  unfold walk, walk_from in *. simpl. apply IH.
  by apply files_all_symbols.
Qed.

Lemma process_file_raises (root file : string) (st : run_state) :
  read_and_parse (os_path_join root file) = None →
  all_symbols (step root st file) = all_symbols st.
Proof using Type.
  intros H. unfold step, process_file, extract_symbols_from_file.
  destruct (SymbolExtractor.endswith file ".py"); [|reflexivity].
  rewrite H. reflexivity.
Qed.
End DriverLemmas.

(** C9: when reading or parsing a file raises, the corpus after the
    attempt is the corpus before it, and the walk goes on: the corpus of
    the whole run is that of the run without the file. *)
Theorem C9_failed_file_skipped
    (os_path_relpath os_path_join : string → string → string)
    (read_and_parse : string → option Module_) (project_path : string)
    (w1 w2 : list (string * list string)) (root : string)
    (fs1 fs2 : list string) (file : string) :
  read_and_parse (os_path_join root file) = None →
  let before :=
    Project.walk_from os_path_relpath os_path_join read_and_parse
      project_path (w1 ++ [(root, fs1)]) (Project.RunState ∅ []) in
  Project.all_symbols
    (Project.process_file os_path_relpath os_path_join read_and_parse
       project_path root before file)
  = Project.all_symbols before ∧
  Project.extract_symbols_from_project os_path_relpath os_path_join
    read_and_parse project_path (w1 ++ (root, fs1 ++ file :: fs2) :: w2)
  = Project.extract_symbols_from_project os_path_relpath os_path_join
      read_and_parse project_path (w1 ++ (root, fs1 ++ fs2) :: w2).
Proof.
  intros Hraise before. split.
  - by apply process_file_raises.
  - unfold Project.extract_symbols_from_project, Project.walk_from.
    rewrite !foldl_app. simpl. rewrite !foldl_app. simpl.
    apply walk_all_symbols. apply files_all_symbols.
    by apply process_file_raises.
Qed.

Lemma C9_failed_file_skipped_witness :
  sample_files (sample_join "p" "bad.py") = None ∧
  Project.extract_symbols_from_project relpath_below sample_join
    sample_files "p"
    ([] ++ ("p", ["a.py"] ++ "bad.py" :: ["notes.txt"])
        :: [("p/pkg", ["__init__.py"])])
  = Project.extract_symbols_from_project relpath_below sample_join
      sample_files "p"
      ([] ++ ("p", ["a.py"] ++ ["notes.txt"])
          :: [("p/pkg", ["__init__.py"])]).
Proof.
  assert (H : sample_files (sample_join "p" "bad.py") = None) by reflexivity.
  exact (conj H
    (proj2 (C9_failed_file_skipped relpath_below sample_join sample_files
              "p" [] [("p/pkg", ["__init__.py"])] "p" ["a.py"]
              ["notes.txt"] "bad.py" H))).
Defined.

(** ** Lemmas on the matcher *)

Section MatcherLemmas.
Import SimilarityChecker.
Variable tfidf_cosine : string → string → option Q.

Local Abbreviation sim := (score tfidf_cosine).

Lemma calculate_similarity_returns (text1 text2 : string) :
  calculate_similarity tfidf_cosine text1 text2 = Some (sim text1 text2).
Proof using Type.
  unfold score, calculate_similarity.
  destruct (String.eqb text1 EmptyString || String.eqb text2 EmptyString);
    [reflexivity|].
  destruct (tfidf_cosine text1 text2); reflexivity.
Qed.

Lemma Qgtb_true (a b : Q) : Qgtb a b = true ↔ (b < a)%Q.
Proof.
  unfold Qgtb. rewrite negb_true_iff. split.
  - intros H. apply Qnot_le_lt. intros Hle.
    apply Qle_bool_iff in Hle. congruence.
  - intros H. destruct (Qle_bool a b) eqn:E; [|reflexivity].
    apply Qle_bool_iff in E. exfalso. by apply (Qlt_not_le b a).
Qed.

Lemma Qgtb_false (a b : Q) : Qgtb a b = false ↔ (a <= b)%Q.
Proof.
  unfold Qgtb. rewrite negb_false_iff. apply Qle_bool_iff.
Qed.

Lemma dict_get_Some (d : dict) (k v : string) :
  dict_get d k = Some v → (k, v) ∈ d.
Proof.
  induction d as [|[k' v'] d IH]; simpl; [discriminate|].
  destruct (String.eqb k k') eqn:E.
  - apply String.eqb_eq in E as ->. intros [= ->]. apply elem_of_cons; by left.
  - intros H. apply elem_of_cons; right. by apply IH.
Qed.

Lemma elem_of_keys (d : dict) (k v : string) : (k, v) ∈ d → k ∈ keys d.
Proof. intros H. unfold keys. apply list_elem_of_fmap. by exists (k, v). Qed.

(** The suffix scan, from any state: either nothing beats the state, or
    the scan ends on the first candidate that attains the largest
    score. *)
Lemma scan_spec (summary_suffix summary_desc : string) (items : dict) :
  ∀ st : best,
    (scan tfidf_cosine summary_suffix summary_desc st items = Some st ∧
     ∀ k d, (k, d) ∈ items → summary_suffix = suffix_of k →
            (sim summary_desc d <= best_similarity st)%Q)
    ∨
    (∃ pre k d post,
       items = pre ++ (k, d) :: post ∧
       summary_suffix = suffix_of k ∧
       (best_similarity st < sim summary_desc d)%Q ∧
       (∀ k' d', (k', d') ∈ pre → summary_suffix = suffix_of k' →
                 (sim summary_desc d' < sim summary_desc d)%Q) ∧
       (∀ k' d', (k', d') ∈ post → summary_suffix = suffix_of k' →
                 (sim summary_desc d' <= sim summary_desc d)%Q) ∧
       scan tfidf_cosine summary_suffix summary_desc st items
       = Some (mkBest (Some k) (sim summary_desc d) d)).
Proof using Type.
  induction items as [|[k0 d0] items IH]; intros st.
  { left. split; [reflexivity|]. intros k d H. by apply elem_of_nil in H. }
  simpl. destruct (String.eqb summary_suffix (suffix_of k0)) eqn:E.
  - apply String.eqb_eq in E.
    rewrite calculate_similarity_returns. simpl.
    destruct (Qgtb (sim summary_desc d0) (best_similarity st)) eqn:G.
    + apply Qgtb_true in G.
      destruct (IH (mkBest (Some k0) (sim summary_desc d0) d0))
        as [[Hscan Hall]|(pre & k & d & post & -> & Hk & Hlt & Hpre & Hpost
                          & Hscan)]; simpl in *.
      * right. exists [], k0, d0, items. repeat split; try done.
        intros k' d' H. by apply elem_of_nil in H.
      * right. exists ((k0, d0) :: pre), k, d, post.
        repeat split; try done.
        -- by apply (Qlt_trans _ (sim summary_desc d0)).
        -- intros k' d' H Hs. apply elem_of_cons in H as [[= -> ->]|H];
             [exact Hlt|by apply (Hpre k')].
    + apply Qgtb_false in G.
      destruct (IH st)
        as [[Hscan Hall]|(pre & k & d & post & -> & Hk & Hlt & Hpre & Hpost
                          & Hscan)].
      * left. split; [exact Hscan|].
        intros k d H Hs. apply elem_of_cons in H as [[= -> ->]|H];
          [exact G|by apply (Hall k)].
      * right. exists ((k0, d0) :: pre), k, d, post.
        repeat split; try done.
        intros k' d' H Hs. apply elem_of_cons in H as [[= -> ->]|H];
          [by apply (Qle_lt_trans _ (best_similarity st))
          |by apply (Hpre k')].
  - apply String.eqb_neq in E. simpl.
    destruct (IH st)
      as [[Hscan Hall]|(pre & k & d & post & -> & Hk & Hlt & Hpre & Hpost
                        & Hscan)].
    + left. split; [exact Hscan|].
      intros k d H Hs. apply elem_of_cons in H as [[= -> ->]|H];
        [done|by apply (Hall k)].
    + right. exists ((k0, d0) :: pre), k, d, post.
      repeat split; try done.
      intros k' d' H Hs. apply elem_of_cons in H as [[= -> ->]|H];
        [done|by apply (Hpre k')].
Qed.
Lemma dict_get_None (d : dict) (k : string) :
  dict_get d k = None ↔ k ∉ keys d.
Proof.
  induction d as [|[k' v'] d IH]; simpl.
  - split; [intros _ H; by apply elem_of_nil in H|done].
  - destruct (String.eqb k k') eqn:E.
    + apply String.eqb_eq in E as ->. split; [discriminate|].
      intros H. exfalso. apply H. apply elem_of_cons. by left.
    + apply String.eqb_neq in E. rewrite IH. split.
      * intros H H'. apply elem_of_cons in H' as [?|?]; done.
      * intros H H'. apply H. apply elem_of_cons. by right.
Qed.

Lemma truthy_Some (k : string) : k ≠ EmptyString → truthy (Some k) = true.
Proof.
  intros H. simpl. apply negb_true_iff. by apply String.eqb_neq.
Qed.

(** The three ways an entry is answered. *)
Lemma match_entry_exact (docstrings_data : dict)
    (key text d : string) :
  dict_get docstrings_data key = Some d →
  match_entry tfidf_cosine docstrings_data (key, text)
  = Some (mkMatchResult key key (sim text d) text d).
Proof using Type.
  intros H. unfold match_entry. rewrite H.
  rewrite calculate_similarity_returns. reflexivity.
Qed.

Lemma match_entry_none (docstrings_data : dict) (key text : string) :
  dict_get docstrings_data key = None →
  (∀ k d, candidate docstrings_data key k d → (sim text d <= 0)%Q) →
  match_entry tfidf_cosine docstrings_data (key, text)
  = Some (mkMatchResult key "NO_MATCH" 0%Q text EmptyString).
Proof using Type.
  intros Hget Hall. unfold match_entry. rewrite Hget.
  destruct (scan_spec (suffix_of key) text docstrings_data
              (mkBest None 0%Q EmptyString))
    as [[-> _]|(pre & k & d & post & -> & Hk & Hlt & _)]; [reflexivity|].
  exfalso. simpl in Hlt. apply (Qlt_not_le _ _ Hlt). apply (Hall k).
  split; [|done]. apply elem_of_app. right. apply elem_of_cons. by left.
Qed.

Lemma match_entry_fuzzy (docstrings_data : dict) (key text : string) :
  dict_get docstrings_data key = None →
  EmptyString ∉ keys docstrings_data →
  (∃ k d, candidate docstrings_data key k d ∧ (0 < sim text d)%Q) →
  ∃ pre k d post,
    docstrings_data = pre ++ (k, d) :: post ∧
    suffix_of k = suffix_of key ∧
    (0 < sim text d)%Q ∧
    (∀ k' d', (k', d') ∈ pre → suffix_of k' = suffix_of key →
              (sim text d' < sim text d)%Q) ∧
    (∀ k' d', (k', d') ∈ post → suffix_of k' = suffix_of key →
              (sim text d' <= sim text d)%Q) ∧
    match_entry tfidf_cosine docstrings_data (key, text)
    = Some (mkMatchResult key k (sim text d) text d).
Proof using Type.
  intros Hget Hempty (k1 & d1 & [Hin1 Hs1] & Hpos1).
  unfold match_entry. rewrite Hget.
  destruct (scan_spec (suffix_of key) text docstrings_data
              (mkBest None 0%Q EmptyString))
    as [[_ Hall]|(pre & k & d & post & Heq & Hk & Hlt & Hpre & Hpost
                  & Hscan)].
  { exfalso. apply (Qlt_not_le _ _ Hpos1). by apply (Hall k1). }
  exists pre, k, d, post. rewrite Hscan. simpl in Hlt |- *.
  assert (Hne : k ≠ EmptyString).
  { intros ->. apply Hempty. apply (elem_of_keys _ _ d). rewrite Heq.
    apply elem_of_app. right. apply elem_of_cons. by left. }
  apply truthy_Some in Hne. simpl in Hne. rewrite Hne.
  repeat split; try done.
  - intros k' d' H Hs. by apply (Hpre k').
  - intros k' d' H Hs. by apply (Hpost k').
Qed.

Lemma match_entry_returns (docstrings_data : dict)
    (entry : string * string) :
  ∃ r, match_entry tfidf_cosine docstrings_data entry = Some r.
Proof using Type.
  destruct entry as [key text]. unfold match_entry.
  destruct (dict_get docstrings_data key) as [d|].
  - rewrite calculate_similarity_returns. simpl. eauto.
  - destruct (scan_spec (suffix_of key) text docstrings_data
                (mkBest None 0%Q EmptyString))
      as [[-> _]|(pre & k & d & post & _ & _ & _ & _ & _ & ->)]; simpl.
    + eauto.
    + destruct (negb (String.eqb k EmptyString)); eauto.
Qed.

(** The results come out in the order of the entries, one for each. *)
Lemma match_loop_spec (docstrings_data : dict) (entries : dict) :
  ∀ results,
    ∃ rs, match_loop tfidf_cosine docstrings_data entries results
          = Some (results ++ rs) ∧
          Forall2 (λ e r, match_entry tfidf_cosine docstrings_data e
                          = Some r) entries rs.
Proof using Type.
  induction entries as [|e entries IH]; intros results.
  - exists []. split; [by rewrite app_nil_r|constructor].
  - destruct (match_entry_returns docstrings_data e) as [r Hr].
    destruct (IH (results ++ [r])) as (rs & Hloop & Hall).
    exists (r :: rs). split; [|by constructor].
    simpl. rewrite Hr. simpl. rewrite Hloop. by rewrite <- app_assoc.
Qed.
End MatcherLemmas.

Section MatcherResults.
Import SimilarityChecker.
Variable tfidf_cosine : string → string → option Q.

Local Abbreviation sim := (score tfidf_cosine).

(** The result emitted for the entry at position [i] of the source map. *)
Lemma match_symbols_lookup (summary_data docstrings_data : dict) (i : nat)
    (entry : string * string) :
  summary_data !! i = Some entry →
  ∃ results r,
    match_symbols tfidf_cosine summary_data docstrings_data = Some results ∧
    length results = length summary_data ∧
    results !! i = Some r ∧
    match_entry tfidf_cosine docstrings_data entry = Some r.
Proof using Type.
  intros Hi. unfold match_symbols.
  destruct (match_loop_spec tfidf_cosine docstrings_data summary_data [])
    as (rs & Hloop & Hall).
  destruct (Forall2_lookup_l _ _ _ _ _ Hall Hi) as (r & Hr & Hentry).
  exists rs, r. repeat split; try done.
  symmetry. by apply (Forall2_length _ _ _ Hall).
Qed.

(** Every candidate scores at most 0, or the first candidate with the
    largest score scores above 0. *)
Lemma candidates_cases (docstrings_data : dict) (key text : string) :
  (∀ k d, candidate docstrings_data key k d → (sim text d <= 0)%Q) ∨
  (∃ k d, candidate docstrings_data key k d ∧ (0 < sim text d)%Q).
Proof using Type.
  destruct (scan_spec tfidf_cosine (suffix_of key) text docstrings_data
              (mkBest None 0%Q EmptyString))
    as [[_ Hall]|(pre & k & d & post & -> & Hk & Hlt & _)].
  - left. intros k d [Hin Hs]. by apply (Hall k).
  - right. exists k, d. split; [|exact Hlt]. split; [|done].
    apply elem_of_app. right. apply elem_of_cons. by left.
Qed.
End MatcherResults.

(** ** Similarity and matching *)

(** C7: an entry whose key is a key of the target map gets the exact
    result, with that key as matched symbol and the similarity of the two
    texts as score, whatever else the target map holds. *)
Theorem C7_exact_match_preferred
    (tfidf_cosine : string → string → option Q)
    (summary_data docstrings_data : SimilarityChecker.dict) (i : nat)
    (key text d : string) :
  summary_data !! i = Some (key, text) →
  SimilarityChecker.dict_get docstrings_data key = Some d →
  ∃ results s,
    SimilarityChecker.match_symbols tfidf_cosine summary_data docstrings_data
    = Some results ∧
    SimilarityChecker.calculate_similarity tfidf_cosine text d = Some s ∧
    results !! i = Some (SimilarityChecker.mkMatchResult key key s text d).
Proof.
  intros Hi Hget.
  destruct (match_symbols_lookup tfidf_cosine _ docstrings_data _ _ Hi)
    as (results & r & Hres & _ & Hr & Hentry).
  rewrite (match_entry_exact tfidf_cosine _ _ _ _ Hget) in Hentry.
  injection Hentry as <-.
  exists results, (SimilarityChecker.score tfidf_cosine text d).
  repeat split; try done. apply calculate_similarity_returns.
Qed.

Lemma C7_exact_match_preferred_witness :
  sample_source !! 0%nat = Some ("lib.io.load", "read file") ∧
  SimilarityChecker.dict_get sample_target "lib.io.load" = Some "load table" ∧
  ∃ results s,
    SimilarityChecker.match_symbols sample_cosine sample_source sample_target
    = Some results ∧
    SimilarityChecker.calculate_similarity sample_cosine "read file"
      "load table" = Some s ∧
    results !! 0%nat
    = Some (SimilarityChecker.mkMatchResult "lib.io.load" "lib.io.load" s
              "read file" "load table").
Proof.
  assert (H1 : sample_source !! 0%nat = Some ("lib.io.load", "read file"))
    by reflexivity.
  assert (H2 : SimilarityChecker.dict_get sample_target "lib.io.load"
               = Some "load table") by reflexivity.
  exact (conj H1 (conj H2
           (C7_exact_match_preferred sample_cosine sample_source
              sample_target 0 "lib.io.load" "read file" "load table"
              H1 H2))).
Defined.

(** C8: [calculate_similarity] returns for every pair of texts; when one
    of them is empty it returns 0 whatever the vectorizer would do, and
    when the vectorizer raises it returns 0. *)
Theorem C8_similarity_total (tfidf_cosine : string → string → option Q)
    (text1 text2 : string) :
  (∃ s, SimilarityChecker.calculate_similarity tfidf_cosine text1 text2
        = Some s) ∧
  (text1 = EmptyString ∨ text2 = EmptyString →
   ∀ other : string → string → option Q,
     SimilarityChecker.calculate_similarity other text1 text2 = Some 0%Q) ∧
  (tfidf_cosine text1 text2 = None →
   SimilarityChecker.calculate_similarity tfidf_cosine text1 text2
   = Some 0%Q).
Proof.
  repeat split.
  - rewrite calculate_similarity_returns. eauto.
  - intros [-> | ->] other; unfold SimilarityChecker.calculate_similarity.
    + reflexivity.
    + destruct (String.eqb text1 EmptyString); reflexivity.
  - intros H. unfold SimilarityChecker.calculate_similarity.
    rewrite H.
    by destruct (String.eqb text1 EmptyString
                 || String.eqb text2 EmptyString).
Qed.

Lemma C8_similarity_total_witness :
  (sample_cosine "the" "the" = None ∧
   SimilarityChecker.calculate_similarity sample_cosine "the" "the"
   = Some 0%Q) ∧
  SimilarityChecker.calculate_similarity (λ _ _, None) EmptyString
    "sort values" = Some 0%Q.
Proof.
  assert (H : sample_cosine "the" "the" = None) by reflexivity.
  split.
  - exact (conj H
      (proj2 (proj2 (C8_similarity_total sample_cosine "the" "the")) H)).
  - exact (proj1 (proj2 (C8_similarity_total sample_cosine EmptyString
                           "sort values"))
             (or_introl eq_refl) (λ _ _, None)).
Defined.

(** C5, as stated, fails: the target map has a key with the leaf segment
    of the source key, its score is 0, and the matcher emits the no-match
    record instead of naming it. *)
Lemma C5_zero_score_candidate_dropped :
  SimilarityChecker.dict_get sample_target "pkg.merge" = None ∧
  SimilarityChecker.candidate sample_target "pkg.merge"
    "lib.frame.merge" "merge frames" ∧
  SimilarityChecker.match_entry sample_cosine sample_target
    ("pkg.merge", "join tables")
  = Some (SimilarityChecker.mkMatchResult "pkg.merge" "NO_MATCH" 0%Q
            "join tables" EmptyString).
Proof.
  repeat split.
  unfold sample_target. do 3 (apply elem_of_cons; right).
  apply elem_of_cons. by left.
Qed.

(** C5, amended: for a target map in which neither the empty string nor
    ["NO_MATCH"] is a key, the matcher emits the no-match record exactly
    when the key is absent from the target map and no key with the same
    leaf segment has a score above 0; when some such key has a score
    above 0, the result names a candidate, with its text and score, and
    no candidate scores higher. *)
Theorem C5_sentinel_iff_no_positive_candidate
    (tfidf_cosine : string → string → option Q)
    (summary_data docstrings_data : SimilarityChecker.dict) (i : nat)
    (key text : string) :
  EmptyString ∉ SimilarityChecker.keys docstrings_data →
  "NO_MATCH" ∉ SimilarityChecker.keys docstrings_data →
  summary_data !! i = Some (key, text) →
  ∃ results r,
    SimilarityChecker.match_symbols tfidf_cosine summary_data docstrings_data
    = Some results ∧
    results !! i = Some r ∧
    (SimilarityChecker.is_sentinel r ↔
     SimilarityChecker.dict_get docstrings_data key = None ∧
     ∀ k d, SimilarityChecker.candidate docstrings_data key k d →
            (SimilarityChecker.score tfidf_cosine text d <= 0)%Q) ∧
    (SimilarityChecker.dict_get docstrings_data key = None →
     (∃ k d, SimilarityChecker.candidate docstrings_data key k d ∧
             (0 < SimilarityChecker.score tfidf_cosine text d)%Q) →
     SimilarityChecker.candidate docstrings_data key
       (SimilarityChecker.docstring_symbol r)
       (SimilarityChecker.docstring_description r) ∧
     SimilarityChecker.similarity r
     = SimilarityChecker.score tfidf_cosine text
         (SimilarityChecker.docstring_description r) ∧
     ∀ k d, SimilarityChecker.candidate docstrings_data key k d →
            (SimilarityChecker.score tfidf_cosine text d
             <= SimilarityChecker.similarity r)%Q).
Proof.
  intros Hempty Hmarker Hi.
  destruct (match_symbols_lookup tfidf_cosine _ docstrings_data _ _ Hi)
    as (results & r & Hres & _ & Hr & Hentry).
  exists results, r. split; [exact Hres|]. split; [exact Hr|].
  destruct (SimilarityChecker.dict_get docstrings_data key) as [d|] eqn:Hget.
  - (* the key is in the target map *)
    rewrite (match_entry_exact tfidf_cosine _ _ _ _ Hget) in Hentry.
    injection Hentry as <-. split; [|discriminate].
    split; [|intros [? _]; discriminate].
    intros [Hsym _]. simpl in Hsym. subst key. exfalso. apply Hmarker.
    apply (elem_of_keys _ _ d). by apply dict_get_Some.
  - destruct (candidates_cases tfidf_cosine docstrings_data key text)
      as [Hall|Hpos].
    + (* no candidate scores above 0 *)
      rewrite (match_entry_none tfidf_cosine _ _ _ Hget Hall) in Hentry.
      injection Hentry as <-. split.
      * split; [done|]. intros _. by repeat split.
      * intros _ (k & d & Hc & Hlt). exfalso.
        apply (Qlt_not_le _ _ Hlt). by apply (Hall k).
    + (* some candidate scores above 0 *)
      destruct (match_entry_fuzzy tfidf_cosine _ _ _ Hget Hempty Hpos)
        as (pre & k & d & post & Heq & Hk & Hlt & Hpre & Hpost & Hfuzzy).
      rewrite Hfuzzy in Hentry. injection Hentry as <-.
      assert (Hin : (k, d) ∈ docstrings_data).
      { rewrite Heq. apply elem_of_app. right. apply elem_of_cons.
        by left. }
      split.
      * split.
        -- intros [Hsym _]. simpl in Hsym. subst k. exfalso.
           apply Hmarker. by apply (elem_of_keys _ _ d).
        -- intros [_ Hall]. exfalso. apply (Qlt_not_le _ _ Hlt).
           by apply (Hall k).
      * intros _ _. simpl. repeat split; try done.
        intros k' d' [Hin' Hs']. rewrite Heq in Hin'.
        apply elem_of_app in Hin' as [Hin'|Hin'].
        -- apply Qlt_le_weak. by apply (Hpre k').
        -- apply elem_of_cons in Hin' as [[= -> ->]|Hin'].
           ++ apply Qle_refl.
           ++ by apply (Hpost k').
Qed.

Lemma C5_sentinel_iff_no_positive_candidate_witness :
  (EmptyString ∉ SimilarityChecker.keys sample_target) ∧
  ("NO_MATCH" ∉ SimilarityChecker.keys sample_target) ∧
  sample_source !! 2%nat = Some ("pkg.merge", "join tables") ∧
  ∃ results r,
    SimilarityChecker.match_symbols sample_cosine sample_source sample_target
    = Some results ∧
    results !! 2%nat = Some r ∧
    (SimilarityChecker.is_sentinel r ↔
     SimilarityChecker.dict_get sample_target "pkg.merge" = None ∧
     ∀ k d, SimilarityChecker.candidate sample_target "pkg.merge" k d →
            (SimilarityChecker.score sample_cosine "join tables" d <= 0)%Q).
Proof.
  assert (H1 : EmptyString ∉ SimilarityChecker.keys sample_target)
    by (apply (bool_decide_unpack _); vm_compute; exact I).
  assert (H2 : "NO_MATCH" ∉ SimilarityChecker.keys sample_target)
    by (apply (bool_decide_unpack _); vm_compute; exact I).
  assert (H3 : sample_source !! 2%nat = Some ("pkg.merge", "join tables"))
    by reflexivity.
  split; [exact H1|]. split; [exact H2|]. split; [exact H3|].
  destruct (C5_sentinel_iff_no_positive_candidate sample_cosine
              sample_source sample_target 2 "pkg.merge" "join tables"
              H1 H2 H3) as (results & r & Hres & Hr & Hiff & _).
  exists results, r. auto.
Defined.

(** C6, as stated, fails: two target maps with distinct keys that are
    equal as mappings and differ in order give different results when two
    candidates share the largest score. *)
Lemma C6_tie_follows_iteration_order :
  SimilarityChecker.dict_wf sample_target ∧
  SimilarityChecker.dict_wf sample_target_reordered ∧
  sample_target ≡ₚ sample_target_reordered ∧
  (list_to_map sample_target : gmap string string)
  = list_to_map sample_target_reordered ∧
  SimilarityChecker.match_entry sample_cosine sample_target
    ("pkg.sort", "sort values")
  = Some (SimilarityChecker.mkMatchResult "pkg.sort" "lib.frame.sort" 1%Q
            "sort values" "sort values") ∧
  SimilarityChecker.match_entry sample_cosine sample_target_reordered
    ("pkg.sort", "sort values")
  = Some (SimilarityChecker.mkMatchResult "pkg.sort" "lib.series.sort" 1%Q
            "sort values" "sort values") ∧
  SimilarityChecker.match_symbols sample_cosine sample_source sample_target
  ≠ SimilarityChecker.match_symbols sample_cosine sample_source
      sample_target_reordered.
Proof.
  split; [apply (bool_decide_unpack _); vm_compute; exact I|].
  split; [apply (bool_decide_unpack _); vm_compute; exact I|].
  split.
  { unfold sample_target, sample_target_reordered.
    apply Permutation_skip, Permutation_swap. }
  split; [by vm_compute|].
  split; [reflexivity|]. split; [reflexivity|].
  vm_compute. discriminate.
Qed.

(** C6, amended: ties are broken by the iteration order of the target
    map.  For an entry whose key is absent from a target map without the
    empty key, and with a candidate that scores above 0, the matched
    symbol is the first key in iteration order among the candidates with
    the largest score: every candidate before it scores strictly less
    and every candidate after it scores at most as much. *)
Theorem C6_first_maximal_candidate
    (tfidf_cosine : string → string → option Q)
    (summary_data docstrings_data : SimilarityChecker.dict) (i : nat)
    (key text : string) :
  summary_data !! i = Some (key, text) →
  SimilarityChecker.dict_get docstrings_data key = None →
  EmptyString ∉ SimilarityChecker.keys docstrings_data →
  (∃ k d, SimilarityChecker.candidate docstrings_data key k d ∧
          (0 < SimilarityChecker.score tfidf_cosine text d)%Q) →
  ∃ results pre k d post,
    SimilarityChecker.match_symbols tfidf_cosine summary_data docstrings_data
    = Some results ∧
    docstrings_data = pre ++ (k, d) :: post ∧
    SimilarityChecker.suffix_of k = SimilarityChecker.suffix_of key ∧
    (∀ k' d', (k', d') ∈ pre →
              SimilarityChecker.suffix_of k'
              = SimilarityChecker.suffix_of key →
              (SimilarityChecker.score tfidf_cosine text d'
               < SimilarityChecker.score tfidf_cosine text d)%Q) ∧
    (∀ k' d', (k', d') ∈ post →
              SimilarityChecker.suffix_of k'
              = SimilarityChecker.suffix_of key →
              (SimilarityChecker.score tfidf_cosine text d'
               <= SimilarityChecker.score tfidf_cosine text d)%Q) ∧
    results !! i
    = Some (SimilarityChecker.mkMatchResult key k
              (SimilarityChecker.score tfidf_cosine text d) text d).
Proof.
  intros Hi Hget Hempty Hpos.
  destruct (match_symbols_lookup tfidf_cosine _ docstrings_data _ _ Hi)
    as (results & r & Hres & _ & Hr & Hentry).
  destruct (match_entry_fuzzy tfidf_cosine _ _ _ Hget Hempty Hpos)
    as (pre & k & d & post & Heq & Hk & Hlt & Hpre & Hpost & Hfuzzy).
  rewrite Hfuzzy in Hentry. injection Hentry as <-.
  exists results, pre, k, d, post. by repeat split.
Qed.

Lemma C6_first_maximal_candidate_witness :
  sample_source !! 1%nat = Some ("pkg.sort", "sort values") ∧
  SimilarityChecker.dict_get sample_target "pkg.sort" = None ∧
  (EmptyString ∉ SimilarityChecker.keys sample_target) ∧
  ∃ results pre k d post,
    SimilarityChecker.match_symbols sample_cosine sample_source sample_target
    = Some results ∧
    sample_target = pre ++ (k, d) :: post ∧
    results !! 1%nat
    = Some (SimilarityChecker.mkMatchResult "pkg.sort" k
              (SimilarityChecker.score sample_cosine "sort values" d)
              "sort values" d).
Proof.
  assert (H1 : sample_source !! 1%nat = Some ("pkg.sort", "sort values"))
    by reflexivity.
  assert (H2 : SimilarityChecker.dict_get sample_target "pkg.sort" = None)
    by reflexivity.
  assert (H3 : EmptyString ∉ SimilarityChecker.keys sample_target)
    by (apply (bool_decide_unpack _); vm_compute; exact I).
  assert (H4 : ∃ k d,
             SimilarityChecker.candidate sample_target "pkg.sort" k d ∧
             (0 < SimilarityChecker.score sample_cosine "sort values" d)%Q).
  { exists "lib.frame.sort", "sort values". split; [|reflexivity].
    split; [|reflexivity]. unfold sample_target.
    apply elem_of_cons; right. apply elem_of_cons. by left. }
  split; [exact H1|]. split; [exact H2|]. split; [exact H3|].
  destruct (C6_first_maximal_candidate sample_cosine sample_source
              sample_target 1 "pkg.sort" "sort values" H1 H2 H3 H4)
    as (results & pre & k & d & post & Hres & Heq & _ & _ & _ & Hr).
  exists results, pre, k, d, post. auto.
Defined.

(** ** Lemmas on strings *)

Lemma append_cons (c : ascii) (a b : string) :
  String c a +:+ b = String c (a +:+ b).
Proof. reflexivity. Qed.

Lemma append_nil_r (a : string) : a +:+ EmptyString = a.
Proof.
  induction a as [|c a IH]; [reflexivity|]. by rewrite append_cons, IH.
Qed.

Lemma append_assoc (a b c : string) : (a +:+ b) +:+ c = a +:+ (b +:+ c).
Proof.
  induction a as [|x a IH]; [reflexivity|]. by rewrite !append_cons, IH.
Qed.

Lemma length_append (a b : string) :
  String.length (a +:+ b) = (String.length a + String.length b)%nat.
Proof.
  induction a as [|x a IH]; [reflexivity|].
  rewrite append_cons. simpl. by rewrite IH.
Qed.

Lemma substring_0_all (a : string) : String.substring 0 (String.length a) a = a.
Proof. induction a as [|x a IH]; [reflexivity|]. simpl. by rewrite IH. Qed.

Lemma substring_0_append (a b : string) :
  String.substring 0 (String.length a) (a +:+ b) = a.
Proof.
  induction a as [|x a IH]; [by destruct b|].
  rewrite append_cons. simpl. by rewrite IH.
Qed.

Lemma substring_skip_append (a b : string) :
  String.substring (String.length a) (String.length b) (a +:+ b) = b.
Proof.
  induction a as [|x a IH]; [apply substring_0_all|].
  rewrite append_cons. simpl. exact IH.
Qed.

(** ** Extraction as a fold over the declarations *)

Section ExtractorFold.
Import SymbolExtractor.
Variable cm : string.

Local Abbreviation record_declaration :=
  (λ (acc : gmap string string) (d : string * list stmt),
     record_docstring (cm +:+ "." +:+ d.1) d.2 acc).

Lemma record_docstring_docstring_of (fqn : string) (b : list stmt)
    (symbols : gmap string string) :
  record_docstring fqn b symbols
  = match docstring_of b with
    | Some d => <[fqn := d]> symbols
    | None => symbols
    end.
Proof. by destruct b as [|[[[]|]| | | | |] rest]. Qed.

Lemma foldl_flat_map {A B C} (f : A → C → A) (g : B → list C)
    (h : A → B → A) (l : list B) :
  Forall (λ x, ∀ a, h a x = foldl f a (g x)) l →
  ∀ a, foldl h a l = foldl f a (flat_map g l).
Proof.
  induction 1 as [|x l Hx _ IH]; intros a; [reflexivity|].
  simpl. rewrite foldl_app, <- Hx. apply IH.
Qed.

Lemma visit_declarations (s : stmt) :
  ∀ symbols,
    visit cm s symbols = foldl record_declaration symbols (declarations s).
Proof.
  induction s as [v|name b IH|name b IH|name b IH|kind blocks IH|src]
    using stmt_nested_ind; intros symbols; simpl; try reflexivity;
    try (by apply (foldl_flat_map record_declaration declarations)).
  apply (foldl_flat_map record_declaration (flat_map declarations)).
  eapply Forall_impl; [exact IH|]. intros b Hb a. simpl in Hb.
  by apply (foldl_flat_map record_declaration declarations).
Qed.

Lemma record_declaration_other (k : string) (ds : list (string * list stmt)) :
  Forall (λ d, cm +:+ "." +:+ d.1 ≠ k) ds →
  ∀ symbols, foldl record_declaration symbols ds !! k = symbols !! k.
Proof.
  induction 1 as [|d ds Hd _ IH]; intros symbols; [reflexivity|].
  simpl. rewrite IH, record_docstring_docstring_of.
  destruct (docstring_of d.2); [|reflexivity].
  by apply lookup_insert_ne.
Qed.

Lemma module_key_not_dotted (n : string) : cm +:+ "." +:+ n ≠ cm.
Proof.
  intros H. apply (f_equal String.length) in H.
  rewrite !length_append in H. simpl in H. lia.
Qed.
Lemma extract_fold (tree : Module_) :
  extract cm tree
  = foldl record_declaration (record_docstring cm (body tree) ∅)
          (flat_map declarations (body tree)).
Proof.
  unfold extract, visit_Module, generic_visit.
  apply (foldl_flat_map record_declaration declarations).
  apply Forall_forall. intros s _ a. apply visit_declarations.
Qed.
End ExtractorFold.

(** X1: what extraction returns is the left fold, over the declarations
    of the module in depth-first pre-order, of recording each leading
    string literal under the module identifier, a dot and the
    declaration's name, started from the module's own docstring. *)
Theorem X1_extract_is_fold (cm : string) (tree : Module_) :
  SymbolExtractor.extract cm tree
  = foldl (λ acc d,
             SymbolExtractor.record_docstring (cm +:+ "." +:+ d.1) d.2 acc)
          (SymbolExtractor.record_docstring cm (body tree) ∅)
          (flat_map declarations (body tree)).
Proof. apply extract_fold. Qed.

(** X2: the last declaration visited under a name decides the entry when
    it has a docstring: if no declaration after it in visiting order has
    the same name, the entry for that name is its docstring. *)
Theorem X2_last_declaration_wins (cm : string) (tree : Module_)
    (pre post : list (string * list stmt)) (n d : string) (b : list stmt) :
  flat_map declarations (body tree) = pre ++ (n, b) :: post →
  n ∉ post.*1 →
  docstring_of b = Some d →
  SymbolExtractor.extract cm tree !! (cm +:+ "." +:+ n) = Some d.
Proof.
  intros Hdecl Hlast Hdoc. rewrite extract_fold, Hdecl.
  rewrite foldl_app. simpl. rewrite record_declaration_other.
  - rewrite record_docstring_docstring_of. simpl. rewrite Hdoc.
    apply lookup_insert_eq.
  - apply Forall_forall. intros [n' b'] Hin Heq. simpl in Heq.
    apply Hlast. apply list_elem_of_fmap. exists (n', b').
    split; [|exact Hin]. simpl.
    apply (inj (String.app cm)) in Heq.
    apply (inj (String.app ".")) in Heq. by symmetry.
Qed.

Lemma X2_last_declaration_wins_witness :
  flat_map declarations (body redefined)
  = [("f", [docstring "first f"; Simple "return 1"]);
     ("C", [Simple "x = 1"])]
    ++ ("f", [docstring "second f"]) :: [("g", [Simple "pass"])] ∧
  SymbolExtractor.extract "m" redefined !! ("m" +:+ "." +:+ "f")
  = Some "second f".
Proof.
  assert (H1 : flat_map declarations (body redefined)
               = [("f", [docstring "first f"; Simple "return 1"]);
                  ("C", [Simple "x = 1"])]
                 ++ ("f", [docstring "second f"]) :: [("g", [Simple "pass"])])
    by reflexivity.
  assert (H2 : "f" ∉ [("g", [Simple "pass"])].*1)
    by (apply (bool_decide_unpack _); vm_compute; exact I).
  exact (conj H1
    (X2_last_declaration_wins "m" redefined _ _ "f" "second f" _ H1 H2
       eq_refl)).
Defined.

(** X3: the entry under the module identifier itself is the module's
    docstring, or absent when the module has none: no declaration in the
    module can overwrite or create it. *)
Theorem X3_module_entry (cm : string) (tree : Module_) :
  SymbolExtractor.extract cm tree !! cm = docstring_of (body tree).
Proof.
  rewrite extract_fold, record_declaration_other.
  - rewrite record_docstring_docstring_of.
    destruct (docstring_of (body tree)); [apply lookup_insert_eq|].
    apply lookup_empty.
  - apply Forall_forall. intros d _. apply module_key_not_dotted.
Qed.

(** ** More on the remover *)

Section RemoverNames.
Import DocstringRemover.

Lemma declared_names_drop_docstring (b : list stmt) :
  flat_map declared_names (drop_docstring b) = flat_map declared_names b.
Proof.
  destruct (drop_docstring_cases b) as [[_ ->]|(s & rest & -> & Hs & ->)];
    [reflexivity|].
  by destruct s as [[[]|]| | | | |].
Qed.

Lemma flat_map_map_ext {A B} (f : A → A) (g : A → list B) (l : list A) :
  Forall (λ x, g (f x) = g x) l → flat_map g (map f l) = flat_map g l.
Proof.
  induction 1 as [|x l Hx _ IH]; [reflexivity|]. simpl. by rewrite Hx, IH.
Qed.

Lemma declared_names_body (b : list stmt) :
  Forall (λ s, declared_names (visit s) = declared_names s) b →
  flat_map declared_names (map visit (drop_docstring b))
  = flat_map declared_names b.
Proof.
  intros IH. rewrite flat_map_map_ext by by apply Forall_drop_docstring.
  apply declared_names_drop_docstring.
Qed.

Lemma declared_names_visit (s : stmt) :
  declared_names (visit s) = declared_names s.
Proof.
  induction s as [v|name b IH|name b IH|name b IH|kind blocks IH|src]
    using stmt_nested_ind; simpl; try reflexivity;
    try (f_equal; by apply declared_names_body).
  induction IH as [|b blocks Hb _ IHblocks]; [reflexivity|].
  simpl. rewrite IHblocks. f_equal. by apply flat_map_map_ext.
Qed.
End RemoverNames.

(** X4: stripping neither removes nor renames a declaration: the names of
    the classes and functions of the stripped module, at any depth and in
    order, are those of the module. *)
Theorem X4_strip_keeps_declarations (tree : Module_) :
  flat_map declared_names (body (DocstringRemover.visit_Module tree))
  = flat_map declared_names (body tree).
Proof.
  destruct tree as [b]. simpl. apply declared_names_body.
  apply Forall_forall. intros s _. apply declared_names_visit.
Qed.

(** X5: a module in which no body opens with a string literal is left
    as it is by stripping. *)
Theorem X5_strip_without_docstrings (tree : Module_) :
  all_bodies_Module no_docstring tree = true →
  DocstringRemover.visit_Module tree = tree.
Proof. apply visit_Module_id. Qed.

(** A module without any docstring. *)
Lemma X5_strip_without_docstrings_witness :
  all_bodies_Module no_docstring
    (mkModule [ClassDef "C" [FunctionDef "f" [Simple "return 1"]]]) = true ∧
  DocstringRemover.visit_Module
    (mkModule [ClassDef "C" [FunctionDef "f" [Simple "return 1"]]])
  = mkModule [ClassDef "C" [FunctionDef "f" [Simple "return 1"]]].
Proof.
  exact (conj eq_refl
    (X5_strip_without_docstrings
       (mkModule [ClassDef "C" [FunctionDef "f" [Simple "return 1"]]])
       eq_refl)).
Defined.

(** X6: extraction from a module in which no body opens with a string
    literal records nothing. *)
Theorem X6_extract_without_docstrings (cm : string) (tree : Module_) :
  all_bodies_Module no_docstring tree = true →
  SymbolExtractor.extract cm tree = ∅.
Proof. apply extract_no_docstring. Qed.

Lemma X6_extract_without_docstrings_witness :
  all_bodies_Module no_docstring
    (mkModule [ClassDef "C" [FunctionDef "f" [Simple "return 1"]]]) = true ∧
  SymbolExtractor.extract "m"
    (mkModule [ClassDef "C" [FunctionDef "f" [Simple "return 1"]]]) = ∅.
Proof.
  exact (conj eq_refl
    (X6_extract_without_docstrings "m"
       (mkModule [ClassDef "C" [FunctionDef "f" [Simple "return 1"]]])
       eq_refl)).
Defined.

(** ** Stripping the files of a project *)

Section RemoverFilesLemmas.
Import RemoverFiles.
Variable os_path_join : string → string → string.
Variable ast_parse : string → option Module_.
Variable ast_unparse : Module_ → unparse_outcome.
Variable astor_to_source : Module_ → option string.

Local Abbreviation remove_file :=
  (remove_docstrings_from_file ast_parse ast_unparse astor_to_source).
Local Abbreviation step :=
  (strip_path ast_parse ast_unparse astor_to_source).

(** The loops do to the file system what one loop over the joined paths
    of the [.py] files does. *)
Lemma strip_walk_flat (os_walk : list (string * list string)) :
  ∀ st,
    strip_walk os_path_join ast_parse ast_unparse astor_to_source os_walk st
    = foldl step st (py_paths os_path_join os_walk).
Proof using Type.
  unfold strip_walk, py_paths.
  induction os_walk as [|[root fs] os_walk IH]; intros st; [reflexivity|].
  simpl. rewrite foldl_app, IH. f_equal. clear IH. revert st.
  induction fs as [|file fs IHfs]; intros st; [reflexivity|].
  simpl. unfold strip_file at 2.
  destruct (SymbolExtractor.endswith file ".py"); simpl; apply IHfs.
Qed.

(** The call reads the file system at its path only. *)
Lemma remove_file_local (fs fs' : gmap string string) (p : string) :
  fs !! p = fs' !! p → remove_file fs p = remove_file fs' p.
Proof using Type.
  intros H. unfold remove_docstrings_from_file. by rewrite H.
Qed.

Lemma remove_file_is_Some (fs : gmap string string) (p new : string) :
  remove_file fs p = Some new → is_Some (fs !! p).
Proof using Type.
  unfold remove_docstrings_from_file. destruct (fs !! p); [eauto|done].
Qed.

Lemma step_other (st : strip_state) (q p : string) :
  q ≠ p → files (step st q) !! p = files st !! p.
Proof using Type.
  intros Hne. unfold strip_path.
  destruct (remove_file (files st) q); simpl; [|reflexivity].
  by apply lookup_insert_ne.
Qed.

Lemma steps_other (paths : list string) (p : string) :
  p ∉ paths → ∀ st, files (foldl step st paths) !! p = files st !! p.
Proof using Type.
  induction paths as [|q paths IH]; intros Hp st; [reflexivity|].
  apply not_elem_of_cons in Hp as [Hne Hp].
  simpl. rewrite (IH Hp). by apply step_other.
Qed.

Lemma steps_raising (fs : gmap string string) (paths : list string)
    (p : string) :
  remove_file fs p = None →
  ∀ st, files st !! p = fs !! p →
        files (foldl step st paths) !! p = fs !! p.
Proof using Type.
  intros Hraise. induction paths as [|q paths IH]; intros st Hst;
    [exact Hst|].
  simpl. apply IH. destruct (decide (q = p)) as [->|Hne].
  - unfold strip_path. rewrite (remove_file_local _ fs p Hst), Hraise.
    exact Hst.
  - by rewrite step_other.
Qed.

Lemma steps_dom (paths : list string) :
  ∀ st, dom (files (foldl step st paths)) = dom (files st).
Proof using Type.
  induction paths as [|q paths IH]; intros st; [reflexivity|].
  simpl. rewrite IH. unfold strip_path.
  destruct (remove_file (files st) q) as [new|] eqn:E; [|reflexivity].
  simpl. apply dom_insert_lookup_L. by apply (remove_file_is_Some _ _ new).
Qed.
End RemoverFilesLemmas.

(** X7: a file on which reading, parsing or unparsing raises keeps its
    content, whatever else the run rewrites. *)
Theorem X7_raising_file_untouched
    (os_path_join : string → string → string)
    (ast_parse : string → option Module_)
    (ast_unparse : Module_ → RemoverFiles.unparse_outcome)
    (astor_to_source : Module_ → option string)
    (fs : gmap string string) (os_walk : list (string * list string))
    (p : string) :
  RemoverFiles.remove_docstrings_from_file ast_parse ast_unparse
    astor_to_source fs p = None →
  RemoverFiles.remove_docstrings_from_project os_path_join ast_parse
    ast_unparse astor_to_source fs os_walk !! p = fs !! p.
Proof.
  intros Hraise. unfold RemoverFiles.remove_docstrings_from_project.
  rewrite strip_walk_flat. by apply (steps_raising _ _ _ fs).
Qed.

(** X8: the run creates no file and deletes none: the paths of the file
    system after it are the paths before it. *)
Theorem X8_strip_keeps_paths
    (os_path_join : string → string → string)
    (ast_parse : string → option Module_)
    (ast_unparse : Module_ → RemoverFiles.unparse_outcome)
    (astor_to_source : Module_ → option string)
    (fs : gmap string string) (os_walk : list (string * list string)) :
  dom (RemoverFiles.remove_docstrings_from_project os_path_join ast_parse
         ast_unparse astor_to_source fs os_walk) = dom fs.
Proof.
  unfold RemoverFiles.remove_docstrings_from_project.
  rewrite strip_walk_flat. apply steps_dom.
Qed.

(** X9: a path that is not the joined path of a [.py] file of the walk
    keeps its content. *)
Theorem X9_other_files_untouched
    (os_path_join : string → string → string)
    (ast_parse : string → option Module_)
    (ast_unparse : Module_ → RemoverFiles.unparse_outcome)
    (astor_to_source : Module_ → option string)
    (fs : gmap string string) (os_walk : list (string * list string))
    (p : string) :
  p ∉ RemoverFiles.py_paths os_path_join os_walk →
  RemoverFiles.remove_docstrings_from_project os_path_join ast_parse
    ast_unparse astor_to_source fs os_walk !! p = fs !! p.
Proof.
  intros Hp. unfold RemoverFiles.remove_docstrings_from_project.
  rewrite strip_walk_flat. by rewrite steps_other.
Qed.

(** X10: when the walk names each file once, a [.py] file of the walk on
    which the call returns ends up holding the text the call returned for
    the original file system: the unparsed stripped tree of its original
    content. *)
Theorem X10_stripped_file_content
    (os_path_join : string → string → string)
    (ast_parse : string → option Module_)
    (ast_unparse : Module_ → RemoverFiles.unparse_outcome)
    (astor_to_source : Module_ → option string)
    (fs : gmap string string) (os_walk : list (string * list string))
    (p new_source_code : string) :
  NoDup (RemoverFiles.py_paths os_path_join os_walk) →
  p ∈ RemoverFiles.py_paths os_path_join os_walk →
  RemoverFiles.remove_docstrings_from_file ast_parse ast_unparse
    astor_to_source fs p = Some new_source_code →
  RemoverFiles.remove_docstrings_from_project os_path_join ast_parse
    ast_unparse astor_to_source fs os_walk !! p = Some new_source_code.
Proof.
  intros Hnodup Hin Hcall.
  unfold RemoverFiles.remove_docstrings_from_project.
  rewrite strip_walk_flat.
  apply list_elem_of_split in Hin as (l1 & l2 & Heq). rewrite Heq in *.
  apply NoDup_app in Hnodup as (_ & Hl1 & Hl2).
  apply NoDup_cons in Hl2 as [Hl2 _].
  rewrite foldl_app. simpl. rewrite steps_other by exact Hl2.
  unfold RemoverFiles.strip_path.
  rewrite (remove_file_local _ _ _ _ fs p).
  - rewrite Hcall. simpl. apply lookup_insert_eq.
  - apply steps_other. intros H. apply (Hl1 p H). apply elem_of_cons.
    by left.
Qed.

Lemma X7_raising_file_untouched_witness :
  RemoverFiles.remove_docstrings_from_file sample_parse sample_unparse
    (λ _, None) sample_fs "p/bad.py" = None ∧
  RemoverFiles.remove_docstrings_from_project sample_join sample_parse
    sample_unparse (λ _, None) sample_fs sample_walk !! "p/bad.py"
  = sample_fs !! "p/bad.py".
Proof.
  assert (H : RemoverFiles.remove_docstrings_from_file sample_parse
                sample_unparse (λ _, None) sample_fs "p/bad.py" = None)
    by (vm_compute; reflexivity).
  exact (conj H
    (X7_raising_file_untouched sample_join sample_parse sample_unparse
       (λ _, None) sample_fs sample_walk "p/bad.py" H)).
Defined.

Lemma X9_other_files_untouched_witness :
  ("p/notes.txt" ∉ RemoverFiles.py_paths sample_join sample_walk) ∧
  RemoverFiles.remove_docstrings_from_project sample_join sample_parse
    sample_unparse (λ _, None) sample_fs sample_walk !! "p/notes.txt"
  = sample_fs !! "p/notes.txt".
Proof.
  assert (H : "p/notes.txt" ∉ RemoverFiles.py_paths sample_join sample_walk)
    by (apply (bool_decide_unpack _); vm_compute; exact I).
  exact (conj H
    (X9_other_files_untouched sample_join sample_parse sample_unparse
       (λ _, None) sample_fs sample_walk "p/notes.txt" H)).
Defined.

Lemma X10_stripped_file_content_witness :
  NoDup (RemoverFiles.py_paths sample_join sample_walk) ∧
  "p/a.py" ∈ RemoverFiles.py_paths sample_join sample_walk ∧
  RemoverFiles.remove_docstrings_from_file sample_parse sample_unparse
    (λ _, None) sample_fs "p/a.py" = Some "C f g" ∧
  RemoverFiles.remove_docstrings_from_project sample_join sample_parse
    sample_unparse (λ _, None) sample_fs sample_walk !! "p/a.py"
  = Some "C f g".
Proof.
  assert (H1 : NoDup (RemoverFiles.py_paths sample_join sample_walk))
    by (apply (bool_decide_unpack _); vm_compute; exact I).
  assert (H2 : "p/a.py" ∈ RemoverFiles.py_paths sample_join sample_walk)
    by (apply (bool_decide_unpack _); vm_compute; exact I).
  assert (H3 : RemoverFiles.remove_docstrings_from_file sample_parse
                 sample_unparse (λ _, None) sample_fs "p/a.py"
               = Some "C f g") by (vm_compute; reflexivity).
  exact (conj H1 (conj H2 (conj H3
    (X10_stripped_file_content sample_join sample_parse sample_unparse
       (λ _, None) sample_fs sample_walk "p/a.py" "C f g" H1 H2 H3)))).
Defined.

(** ** The corpus of a project, file by file *)

Section DriverPaths.
Import Project.
Variable os_path_relpath : string → string → string.
Variable os_path_join : string → string → string.
Variable read_and_parse : string → option Module_.
Variable project_path : string.

Local Abbreviation extract_file :=
  (λ p, extract_symbols_from_file os_path_relpath read_and_parse p
          project_path).
Local Abbreviation step :=
  (process_path os_path_relpath read_and_parse project_path).

Lemma walk_from_flat (os_walk : list (string * list string)) :
  ∀ st,
    walk_from os_path_relpath os_path_join read_and_parse project_path
      os_walk st
    = foldl step st (RemoverFiles.py_paths os_path_join os_walk).
Proof using Type.
  unfold walk_from, RemoverFiles.py_paths.
  induction os_walk as [|[root fs] os_walk IH]; intros st; [reflexivity|].
  simpl. rewrite foldl_app, IH. f_equal. clear IH. revert st.
  induction fs as [|file fs IHfs]; intros st; [reflexivity|].
  simpl. unfold process_file at 2.
  destruct (SymbolExtractor.endswith file ".py"); simpl; apply IHfs.
Qed.

(** An entry of the corpus was there at the start or comes from a file
    of the list. *)
Lemma steps_provenance (paths : list string) (k v : string) :
  ∀ st,
    all_symbols (foldl step st paths) !! k = Some v →
    all_symbols st !! k = Some v ∨
    ∃ p symbols, p ∈ paths ∧ extract_file p = Some symbols ∧
                 symbols !! k = Some v.
Proof using Type.
  induction paths as [|q paths IH]; intros st H; [by left|].
  simpl in H. destruct (IH _ H) as [H'|(p & symbols & Hp & He & Hk)].
  - unfold process_path in H'.
    destruct (extract_file q) as [symbols|] eqn:E; simpl in H';
      [|by left].
    apply lookup_union_Some_raw in H' as [Hq|[_ Hst]]; [|by left].
    right. exists q, symbols. split; [|done]. apply elem_of_cons. by left.
  - right. exists p, symbols. split; [|done]. apply elem_of_cons.
    by right.
Qed.

(** Files that do not define [k] leave the entry for [k] alone. *)
Lemma steps_not_defining (paths : list string) (k : string) :
  (∀ q symbols, q ∈ paths → extract_file q = Some symbols →
                symbols !! k = None) →
  ∀ st, all_symbols (foldl step st paths) !! k = all_symbols st !! k.
Proof using Type.
  induction paths as [|q paths IH]; intros Hnone st; [reflexivity|].
  simpl. rewrite IH.
  - unfold process_path.
    destruct (extract_file q) as [symbols|] eqn:E; simpl; [|reflexivity].
    apply lookup_union_r. apply (Hnone q); [|exact E].
    apply elem_of_cons. by left.
  - intros q' symbols Hq'. apply Hnone. apply elem_of_cons. by right.
Qed.

Lemma steps_printed (paths : list string) :
  ∀ st,
    printed (foldl step st paths)
    = printed st
      ++ map (report os_path_relpath read_and_parse project_path) paths.
Proof using Type.
  induction paths as [|q paths IH]; intros st; simpl;
    [by rewrite app_nil_r|].
  rewrite IH. unfold process_path, report.
  destruct (extract_file q); simpl; by rewrite <- app_assoc.
Qed.
End DriverPaths.

(** X11: every entry of a project's corpus comes from a [.py] file of
    the walk on which the extraction returned, with the value that file's
    extraction gives to the key. *)
Theorem X11_corpus_provenance
    (os_path_relpath os_path_join : string → string → string)
    (read_and_parse : string → option Module_) (project_path : string)
    (os_walk : list (string * list string)) (k v : string) :
  Project.extract_symbols_from_project os_path_relpath os_path_join
    read_and_parse project_path os_walk !! k = Some v →
  ∃ p symbols,
    p ∈ RemoverFiles.py_paths os_path_join os_walk ∧
    Project.extract_symbols_from_file os_path_relpath read_and_parse p
      project_path = Some symbols ∧
    symbols !! k = Some v.
Proof.
  unfold Project.extract_symbols_from_project. rewrite walk_from_flat.
  intros H. apply steps_provenance in H as [H|H]; [|exact H].
  simpl in H. by rewrite lookup_empty in H.
Qed.

(** X12: on a key collision the file processed last wins: when a file
    gives [v] to a key and no file after it in walk order has the key,
    the corpus holds [v] for the key, whatever the files before it
    give. *)
Theorem X12_last_file_wins
    (os_path_relpath os_path_join : string → string → string)
    (read_and_parse : string → option Module_) (project_path : string)
    (os_walk : list (string * list string)) (l1 l2 : list string)
    (p : string) (symbols : gmap string string) (k v : string) :
  RemoverFiles.py_paths os_path_join os_walk = l1 ++ p :: l2 →
  Project.extract_symbols_from_file os_path_relpath read_and_parse p
    project_path = Some symbols →
  symbols !! k = Some v →
  (∀ q later, q ∈ l2 →
     Project.extract_symbols_from_file os_path_relpath read_and_parse q
       project_path = Some later →
     later !! k = None) →
  Project.extract_symbols_from_project os_path_relpath os_path_join
    read_and_parse project_path os_walk !! k = Some v.
Proof.
  intros Hpaths Hp Hk Hlater.
  unfold Project.extract_symbols_from_project.
  rewrite walk_from_flat, Hpaths, foldl_app. simpl.
  rewrite (steps_not_defining _ _ _ _ _ Hlater).
  unfold process_path. rewrite Hp. simpl.
  by apply lookup_union_Some_l.
Qed.

(** X13: the driver prints one line for each [.py] file of the walk, in
    walk order: the success line when the extraction returned and the
    error line when it raised. *)
Theorem X13_one_report_per_file
    (os_path_relpath os_path_join : string → string → string)
    (read_and_parse : string → option Module_) (project_path : string)
    (os_walk : list (string * list string)) :
  Project.printed
    (Project.walk_from os_path_relpath os_path_join read_and_parse
       project_path os_walk (Project.RunState ∅ []))
  = map (report os_path_relpath read_and_parse project_path)
        (RemoverFiles.py_paths os_path_join os_walk).
Proof. rewrite walk_from_flat. apply steps_printed. Qed.

Lemma X11_corpus_provenance_witness :
  Project.extract_symbols_from_project relpath_below sample_join
    sample_read "p" sample_walk !! "b.f" = Some "doc" ∧
  ∃ p symbols,
    p ∈ RemoverFiles.py_paths sample_join sample_walk ∧
    Project.extract_symbols_from_file relpath_below sample_read p "p"
    = Some symbols ∧
    symbols !! "b.f" = Some "doc".
Proof.
  assert (H : Project.extract_symbols_from_project relpath_below sample_join
                sample_read "p" sample_walk !! "b.f" = Some "doc")
    by (vm_compute; reflexivity).
  exact (conj H
    (X11_corpus_provenance relpath_below sample_join sample_read "p"
       sample_walk "b.f" "doc" H)).
Defined.

Lemma X12_last_file_wins_witness :
  RemoverFiles.py_paths sample_join collision_walk
  = ["p/pkg.py"] ++ "p/pkg/__init__.py" :: [] ∧
  (Project.extract_symbols_from_file relpath_below collision_read
     "p/pkg.py" "p" ≫= λ symbols, symbols !! "pkg")
  = Some "module doc" ∧
  Project.extract_symbols_from_project relpath_below sample_join
    collision_read "p" collision_walk !! "pkg" = Some "first".
Proof.
  assert (H1 : RemoverFiles.py_paths sample_join collision_walk
               = ["p/pkg.py"] ++ "p/pkg/__init__.py" :: []) by reflexivity.
  split; [exact H1|]. split; [vm_compute; reflexivity|].
  eapply (X12_last_file_wins relpath_below sample_join collision_read "p"
            collision_walk _ _ _ _ "pkg" "first" H1).
  - reflexivity.
  - vm_compute. reflexivity.
  - intros q later Hq. by apply elem_of_nil in Hq.
Defined.

(** ** More on the matcher *)

Section MatcherShape.
Import SimilarityChecker.
Variable tfidf_cosine : string → string → option Q.

Local Abbreviation sim := (score tfidf_cosine).

Lemma match_entry_summary (docstrings_data : dict) (key text : string)
    (r : MatchResult) :
  match_entry tfidf_cosine docstrings_data (key, text) = Some r →
  summary_symbol r = key ∧ summary_description r = text.
Proof using Type.
  unfold match_entry.
  destruct (dict_get docstrings_data key) as [d|].
  - rewrite calculate_similarity_returns. simpl. by intros [= <-].
  - destruct (scan _ _ _ _ _) as [st|]; simpl; [|discriminate].
    destruct (truthy (best_match st)); by intros [= <-].
Qed.

Lemma score_empty_l (d : string) : sim EmptyString d = 0%Q.
Proof using Type. reflexivity. Qed.

(** A result other than the no-match record for a key that is not in
    the target map names a candidate that scores above 0. *)
Lemma match_entry_named (docstrings_data : dict) (key text : string)
    (r : MatchResult) :
  dict_get docstrings_data key = None →
  match_entry tfidf_cosine docstrings_data (key, text) = Some r →
  docstring_symbol r ≠ "NO_MATCH" →
  candidate docstrings_data key (docstring_symbol r)
    (docstring_description r) ∧
  similarity r = sim text (docstring_description r) ∧
  (0 < similarity r)%Q.
Proof using Type.
  intros Hget. unfold match_entry. rewrite Hget.
  destruct (scan_spec tfidf_cosine (suffix_of key) text docstrings_data
              (mkBest None 0%Q EmptyString))
    as [[-> _]|(pre & k & d & post & -> & Hk & Hlt & _ & _ & ->)]; simpl.
  - by intros [= <-].
  - destruct (negb (String.eqb k EmptyString)); intros [= <-]; simpl;
      [|done].
    intros _. repeat split; try done.
    apply elem_of_app. right. apply elem_of_cons. by left.
Qed.

Lemma match_loop_empty_target (entries : dict) :
  ∀ results,
    match_loop tfidf_cosine [] entries results
    = Some (results
            ++ map (λ e, mkMatchResult e.1 "NO_MATCH" 0%Q e.2 EmptyString)
                   entries).
Proof using Type.
  induction entries as [|[key text] entries IH]; intros results; simpl.
  - by rewrite app_nil_r.
  - rewrite IH. by rewrite <- app_assoc.
Qed.
End MatcherShape.

(** X14: [match_symbols] returns one result for each entry of the source
    map, in the order of the source map, and each result carries the key
    and the description of its entry. *)
Theorem X14_one_result_per_entry
    (tfidf_cosine : string → string → option Q)
    (summary_data docstrings_data : SimilarityChecker.dict) :
  ∃ results,
    SimilarityChecker.match_symbols tfidf_cosine summary_data docstrings_data
    = Some results ∧
    map (λ r, (SimilarityChecker.summary_symbol r,
               SimilarityChecker.summary_description r)) results
    = summary_data.
Proof.
  destruct (match_loop_spec tfidf_cosine docstrings_data summary_data [])
    as (rs & Hloop & Hall).
  exists rs. split; [exact Hloop|]. clear Hloop.
  induction Hall as [|[key text] r entries rs Hr _ IH]; [reflexivity|].
  simpl. apply match_entry_summary in Hr as [<- <-]. by rewrite IH.
Qed.

(** X15: a fuzzy match is never a zero-score match: for an entry whose
    key is not in the target map, a result that is not the no-match
    record names a key of the target map with the same leaf segment, with
    its text, and its score is above 0. *)
Theorem X15_fuzzy_match_scores_above_zero
    (tfidf_cosine : string → string → option Q)
    (summary_data docstrings_data : SimilarityChecker.dict) (i : nat)
    (key text : string) (results : list SimilarityChecker.MatchResult)
    (r : SimilarityChecker.MatchResult) :
  summary_data !! i = Some (key, text) →
  SimilarityChecker.dict_get docstrings_data key = None →
  SimilarityChecker.match_symbols tfidf_cosine summary_data docstrings_data
  = Some results →
  results !! i = Some r →
  SimilarityChecker.docstring_symbol r ≠ "NO_MATCH" →
  SimilarityChecker.candidate docstrings_data key
    (SimilarityChecker.docstring_symbol r)
    (SimilarityChecker.docstring_description r) ∧
  SimilarityChecker.similarity r
  = SimilarityChecker.score tfidf_cosine text
      (SimilarityChecker.docstring_description r) ∧
  (0 < SimilarityChecker.similarity r)%Q.
Proof.
  intros Hi Hget Hres Hr Hnamed.
  destruct (match_symbols_lookup tfidf_cosine _ docstrings_data _ _ Hi)
    as (results' & r' & Hres' & _ & Hr' & Hentry).
  rewrite Hres in Hres'. injection Hres' as <-.
  rewrite Hr in Hr'. injection Hr' as <-.
  by apply (match_entry_named tfidf_cosine docstrings_data key text).
Qed.

Lemma X15_fuzzy_match_scores_above_zero_witness :
  (0 < SimilarityChecker.similarity
         (SimilarityChecker.mkMatchResult "pkg.sort" "lib.frame.sort" 1%Q
            "sort values" "sort values"))%Q.
Proof.
  refine (proj2 (proj2
    (X15_fuzzy_match_scores_above_zero sample_cosine sample_source
       sample_target 1 "pkg.sort" "sort values" _
       (SimilarityChecker.mkMatchResult "pkg.sort" "lib.frame.sort" 1%Q
          "sort values" "sort values")
       eq_refl eq_refl eq_refl eq_refl _))).
  simpl. discriminate.
Defined.

(** X16: against an empty target map every entry gets the no-match
    record. *)
Theorem X16_empty_target
    (tfidf_cosine : string → string → option Q)
    (summary_data : SimilarityChecker.dict) :
  SimilarityChecker.match_symbols tfidf_cosine summary_data []
  = Some (map (λ e, SimilarityChecker.mkMatchResult e.1 "NO_MATCH" 0%Q e.2
                      EmptyString) summary_data).
Proof. apply match_loop_empty_target. Qed.

(** X17: an entry with an empty description never gets a fuzzy match:
    its score is 0, and when its key is not in the target map its result
    is the no-match record, whatever candidates the target map holds. *)
Theorem X17_empty_description
    (tfidf_cosine : string → string → option Q)
    (summary_data docstrings_data : SimilarityChecker.dict) (i : nat)
    (key : string) :
  summary_data !! i = Some (key, EmptyString) →
  ∃ results r,
    SimilarityChecker.match_symbols tfidf_cosine summary_data docstrings_data
    = Some results ∧
    results !! i = Some r ∧
    SimilarityChecker.similarity r = 0%Q ∧
    (SimilarityChecker.dict_get docstrings_data key = None →
     r = SimilarityChecker.mkMatchResult key "NO_MATCH" 0%Q EmptyString
           EmptyString).
Proof.
  intros Hi.
  destruct (match_symbols_lookup tfidf_cosine _ docstrings_data _ _ Hi)
    as (results & r & Hres & _ & Hr & Hentry).
  exists results, r. split; [exact Hres|]. split; [exact Hr|].
  destruct (SimilarityChecker.dict_get docstrings_data key) as [d|] eqn:Hget.
  - rewrite (match_entry_exact tfidf_cosine _ _ _ _ Hget) in Hentry.
    injection Hentry as <-. by split.
  - rewrite (match_entry_none tfidf_cosine _ _ _ Hget) in Hentry.
    + injection Hentry as <-. by split.
    + intros k d _. rewrite score_empty_l. apply Qle_refl.
Qed.

Lemma X17_empty_description_witness :
  ∃ results r,
    SimilarityChecker.match_symbols sample_cosine
      [("pkg.sort", EmptyString)] sample_target = Some results ∧
    results !! 0%nat = Some r ∧
    SimilarityChecker.similarity r = 0%Q.
Proof.
  destruct (X17_empty_description sample_cosine [("pkg.sort", EmptyString)]
              sample_target 0 "pkg.sort" eq_refl)
    as (results & r & H1 & H2 & H3 & _).
  exists results, r. auto.
Defined.

(** ** Filtering and statistics *)

Section AnalysisLemmas.
Import SimilarityChecker Analysis.

Lemma dict_get_filter (p : string → bool) (d : dict) (k : string) :
  dict_get (List.filter (λ item, p item.1) d) k
  = if p k then dict_get d k else None.
Proof.
  induction d as [|[k' v] d IH]; simpl; [by destruct (p k)|].
  destruct (p k') eqn:Hk'; simpl.
  - destruct (String.eqb k k') eqn:E; [|exact IH].
    apply String.eqb_eq in E as ->. by rewrite Hk'.
  - rewrite IH. destruct (String.eqb k k') eqn:E; [|reflexivity].
    apply String.eqb_eq in E as ->. by rewrite Hk'.
Qed.

Lemma classes_partition (results : list MatchResult) :
  (length (List.filter is_exact results)
   + length (List.filter is_fuzzy results)
   + length (List.filter is_no_match results))%nat
  = length results.
Proof.
  induction results as [|r results IH]; [reflexivity|].
  simpl. unfold is_exact, is_fuzzy in *.
  destruct (String.eqb (summary_symbol r) (docstring_symbol r)),
    (is_no_match r); simpl; lia.
Qed.

Lemma np_max_spec (rest : list Q) :
  ∀ s, np_max s rest ∈ s :: rest ∧
       ∀ x, x ∈ s :: rest → (x <= np_max s rest)%Q.
Proof.
  unfold np_max. induction rest as [|y rest IH]; intros s; simpl.
  - split; [apply elem_of_cons; by left|].
    intros x Hx. apply elem_of_cons in Hx as [->|Hx];
      [apply Qle_refl|by apply elem_of_nil in Hx].
  - destruct (IH (if Qgtb y s then y else s)) as [Hin Hmax]. split.
    + apply elem_of_cons in Hin as [Hin|Hin].
      * rewrite Hin. destruct (Qgtb y s).
        -- apply elem_of_cons; right. apply elem_of_cons. by left.
        -- apply elem_of_cons. by left.
      * apply elem_of_cons; right. apply elem_of_cons. by right.
    + intros x Hx.
      assert (Hs : (s <= (if Qgtb y s then y else s))%Q).
      { destruct (Qgtb y s) eqn:G; [|apply Qle_refl].
        apply Qlt_le_weak. by apply Qgtb_true. }
      assert (Hy : (y <= (if Qgtb y s then y else s))%Q).
      { destruct (Qgtb y s) eqn:G; [apply Qle_refl|]. by apply Qgtb_false. }
      assert (Htop := Hmax _ (proj2 (elem_of_cons _ _ _) (or_introl eq_refl))).
      apply elem_of_cons in Hx as [->|Hx];
        [by apply (Qle_trans _ _ _ Hs)|].
      apply elem_of_cons in Hx as [->|Hx];
        [by apply (Qle_trans _ _ _ Hy)|].
      apply Hmax. apply elem_of_cons. by right.
Qed.

Lemma np_min_spec (rest : list Q) :
  ∀ s, np_min s rest ∈ s :: rest ∧
       ∀ x, x ∈ s :: rest → (np_min s rest <= x)%Q.
Proof.
  unfold np_min. induction rest as [|y rest IH]; intros s; simpl.
  - split; [apply elem_of_cons; by left|].
    intros x Hx. apply elem_of_cons in Hx as [->|Hx];
      [apply Qle_refl|by apply elem_of_nil in Hx].
  - destruct (IH (if Qgtb s y then y else s)) as [Hin Hmin]. split.
    + apply elem_of_cons in Hin as [Hin|Hin].
      * rewrite Hin. destruct (Qgtb s y).
        -- apply elem_of_cons; right. apply elem_of_cons. by left.
        -- apply elem_of_cons. by left.
      * apply elem_of_cons; right. apply elem_of_cons. by right.
    + intros x Hx.
      assert (Hs : ((if Qgtb s y then y else s) <= s)%Q).
      { destruct (Qgtb s y) eqn:G; [|apply Qle_refl].
        apply Qlt_le_weak. by apply Qgtb_true. }
      assert (Hy : ((if Qgtb s y then y else s) <= y)%Q).
      { destruct (Qgtb s y) eqn:G; [apply Qle_refl|]. by apply Qgtb_false. }
      assert (Hbot := Hmin _ (proj2 (elem_of_cons _ _ _) (or_introl eq_refl))).
      apply elem_of_cons in Hx as [->|Hx];
        [by apply (Qle_trans _ _ _ Hbot)|].
      apply elem_of_cons in Hx as [->|Hx];
        [by apply (Qle_trans _ _ _ Hbot)|].
      apply Hmin. apply elem_of_cons. by right.
Qed.

(** The list [similarities] holds the scores above 0 of the results. *)
Lemma elem_of_similarities (results : list MatchResult) (x : Q) :
  x ∈ map similarity (List.filter (λ r, Qgtb (similarity r) 0%Q) results)
  ↔ ∃ r, r ∈ results ∧ similarity r = x ∧ (0 < x)%Q.
Proof.
  rewrite list_elem_of_fmap. split.
  - intros (r & -> & Hr). apply list_elem_of_In, filter_In in Hr as [Hr Hp].
    exists r. split; [by apply list_elem_of_In|]. split; [done|].
    by apply Qgtb_true.
  - intros (r & Hr & <- & Hp). exists r. split; [done|].
    apply list_elem_of_In, filter_In. split; [by apply list_elem_of_In|].
    by apply Qgtb_true.
Qed.
Lemma prefix_append (a s : string) :
  String.prefix a s = true ↔ ∃ b, s = a +:+ b.
Proof.
  revert s. induction a as [|c a IH]; intros s.
  - split; [intros _; by exists s|by destruct s].
  - destruct s as [|c' s]; simpl.
    + split; [discriminate|intros [b Hb]; discriminate].
    + destruct (ascii_dec c c') as [->|Hne].
      * rewrite IH. split; intros [b Hb]; exists b.
        -- by rewrite append_cons, <- Hb.
        -- rewrite append_cons in Hb. by injection Hb.
      * split; [discriminate|]. intros [b Hb].
        rewrite append_cons in Hb. injection Hb as Hc _. by destruct Hne.
Qed.

(** [contains] is the substring test. *)
Lemma contains_spec (sub s : string) :
  contains sub s = true ↔ ∃ a b, s = a +:+ sub +:+ b.
Proof.
  induction s as [|c s IH].
  - change (contains sub EmptyString)
      with (String.prefix sub EmptyString || false).
    rewrite orb_false_r, prefix_append. split.
    + intros [b Hb]. by exists EmptyString, b.
    + intros (a & b & H). destruct a; [by exists b|discriminate].
  - change (contains sub (String c s))
      with (String.prefix sub (String c s) || contains sub s).
    rewrite orb_true_iff, prefix_append, IH. split.
    + intros [[b Hb]|(a & b & Hab)].
      * by exists EmptyString, b.
      * exists (String c a), b. by rewrite append_cons, Hab.
    + intros (a & b & Hab). destruct a as [|c' a].
      * left. by exists b.
      * right. exists a, b. rewrite append_cons in Hab. by injection Hab.
Qed.

Lemma filter_count_Forall2 {A B} (R : A → B → Prop) (p : A → bool)
    (q : B → bool) (l : list A) (k : list B) :
  (∀ x y, R x y → p x = q y) →
  Forall2 R l k →
  length (List.filter p l) = length (List.filter q k).
Proof.
  intros Hpq. induction 1 as [|x y l k Hxy _ IH]; [reflexivity|].
  simpl. rewrite (Hpq x y Hxy). destruct (q y); simpl; by rewrite IH.
Qed.

(** How a result of the matcher is counted, from how it was found. *)
Lemma match_entry_is_exact (tfidf_cosine : string → string → option Q)
    (docstrings_data : dict) (key text : string) (r : MatchResult) :
  "NO_MATCH" ∉ keys docstrings_data →
  match_entry tfidf_cosine docstrings_data (key, text) = Some r →
  is_exact r
  = match dict_get docstrings_data key with
    | Some _ => true
    | None => false
    end.
Proof.
  intros Hmarker. unfold match_entry, is_exact, is_no_match.
  destruct (dict_get docstrings_data key) as [d|] eqn:Hget.
  - rewrite calculate_similarity_returns. simpl. intros [= <-]. simpl.
    rewrite String.eqb_refl. simpl. apply negb_true_iff.
    apply String.eqb_neq. intros ->. apply Hmarker.
    apply (elem_of_keys _ _ d). by apply dict_get_Some.
  - destruct (scan_spec tfidf_cosine (suffix_of key) text docstrings_data
                (mkBest None 0%Q EmptyString))
      as [[-> _]|(pre & k & d & post & Heq & _ & _ & _ & _ & ->)]; simpl.
    + intros [= <-]. apply andb_false_r.
    + destruct (negb (String.eqb k EmptyString)); intros [= <-]; simpl;
        [|apply andb_false_r].
      apply andb_false_iff. left. apply String.eqb_neq. intros ->.
      apply dict_get_None in Hget. apply Hget. apply (elem_of_keys _ _ d).
      rewrite Heq. apply elem_of_app. right. apply elem_of_cons. by left.
Qed.
End AnalysisLemmas.

(** X18: [extract_pandas_symbols] keeps, with their texts, the entries
    whose key holds [pandas.core.methods] and no others: looking a key
    up in the result gives what the input gives when the key holds the
    marker, and nothing otherwise. *)
Theorem X18_extract_pandas_symbols_lookup
    (docstrings_data : SimilarityChecker.dict) (k : string) :
  SimilarityChecker.dict_get (Analysis.extract_pandas_symbols docstrings_data)
    k
  = if Analysis.contains "pandas.core.methods" k
    then SimilarityChecker.dict_get docstrings_data k
    else None.
Proof.
  apply (dict_get_filter (Analysis.contains "pandas.core.methods")).
Qed.

(** X19: when [analyze_results] prints statistics, every result is
    counted once: the exact, fuzzy and no-match counts add up to the
    number of results. *)
Theorem X19_counts_add_up
    (results : list SimilarityChecker.MatchResult)
    (st : Analysis.statistics) :
  Analysis.analyze_results results = Some st →
  Analysis.total st = length results ∧
  (Analysis.exact_matches st + Analysis.fuzzy_matches st
   + Analysis.no_matches st)%nat = Analysis.total st.
Proof.
  unfold Analysis.analyze_results.
  destruct (map _ _) as [|s rest]; [discriminate|].
  intros [= <-]. simpl. split; [reflexivity|]. apply classes_partition.
Qed.

Lemma X19_counts_add_up_witness :
  ∃ st, Analysis.analyze_results sample_results = Some st ∧
        Analysis.total st = 3%nat ∧
        (Analysis.exact_matches st + Analysis.fuzzy_matches st
         + Analysis.no_matches st)%nat = Analysis.total st.
Proof.
  eexists. split; [reflexivity|].
  exact (X19_counts_add_up sample_results _ eq_refl).
Defined.

(** X20: the largest and the smallest similarity printed are scores of
    results, both above 0, and every score above 0 among the results
    lies between them: results that score 0 do not enter the
    statistics. *)
Theorem X20_extremes
    (results : list SimilarityChecker.MatchResult)
    (st : Analysis.statistics) :
  Analysis.analyze_results results = Some st →
  (∃ r, r ∈ results ∧
        SimilarityChecker.similarity r = Analysis.max_similarity st) ∧
  (∃ r, r ∈ results ∧
        SimilarityChecker.similarity r = Analysis.min_similarity st) ∧
  (0 < Analysis.min_similarity st)%Q ∧
  ∀ r, r ∈ results → (0 < SimilarityChecker.similarity r)%Q →
       (Analysis.min_similarity st <= SimilarityChecker.similarity r)%Q ∧
       (SimilarityChecker.similarity r <= Analysis.max_similarity st)%Q.
Proof.
  unfold Analysis.analyze_results.
  destruct (map _ _) as [|s rest] eqn:E; [discriminate|].
  intros [= <-]. simpl.
  destruct (np_max_spec rest s) as [Hmax_in Hmax].
  destruct (np_min_spec rest s) as [Hmin_in Hmin].
  rewrite <- E in Hmax_in, Hmax, Hmin_in, Hmin.
  apply elem_of_similarities in Hmax_in as (rmax & Hrmax & Hmaxeq & _).
  apply elem_of_similarities in Hmin_in as (rmin & Hrmin & Hmineq & Hpos).
  split; [by exists rmax|]. split; [by exists rmin|].
  split; [exact Hpos|].
  intros r Hr Hrpos.
  assert (Hin : SimilarityChecker.similarity r
                ∈ map SimilarityChecker.similarity
                    (List.filter
                       (λ r, SimilarityChecker.Qgtb
                               (SimilarityChecker.similarity r) 0%Q)
                       results)).
  { apply elem_of_similarities. by exists r. }
  split; [by apply Hmin|by apply Hmax].
Qed.

Lemma X20_extremes_witness :
  ∃ st, Analysis.analyze_results sample_results = Some st ∧
        (0 < Analysis.min_similarity st)%Q.
Proof.
  eexists. split; [reflexivity|].
  exact (proj1 (proj2 (proj2 (X20_extremes sample_results _ eq_refl)))).
Defined.

(** X21: [analyze_results] prints no statistics exactly when no result
    scores above 0, which includes the empty list of results. *)
Theorem X21_no_statistics
    (results : list SimilarityChecker.MatchResult) :
  Analysis.analyze_results results = None ↔
  ∀ r, r ∈ results → (SimilarityChecker.similarity r <= 0)%Q.
Proof.
  unfold Analysis.analyze_results.
  destruct (map _ _) as [|s rest] eqn:E; split; try done.
  - intros _ r Hr. apply Qnot_lt_le. intros Hpos.
    assert (Hin : SimilarityChecker.similarity r ∈ @nil Q);
      [|by apply elem_of_nil in Hin].
    rewrite <- E. apply elem_of_similarities. by exists r.
  - intros Hall. exfalso.
    assert (Hin : s ∈ s :: rest) by (apply elem_of_cons; by left).
    rewrite <- E in Hin.
    apply elem_of_similarities in Hin as (r & Hr & <- & Hpos).
    apply (Qlt_not_le _ _ Hpos). by apply Hall.
Qed.

(** X22: for the results of [match_symbols] against a target map
    without the key ["NO_MATCH"], the number of results counted as exact
    matches is the number of source entries whose key is in the target
    map. *)
Theorem X22_exact_count
    (tfidf_cosine : string → string → option Q)
    (summary_data docstrings_data : SimilarityChecker.dict)
    (results : list SimilarityChecker.MatchResult) :
  "NO_MATCH" ∉ SimilarityChecker.keys docstrings_data →
  SimilarityChecker.match_symbols tfidf_cosine summary_data docstrings_data
  = Some results →
  length (List.filter Analysis.is_exact results)
  = length (List.filter
              (λ e, match SimilarityChecker.dict_get docstrings_data e.1 with
                    | Some _ => true
                    | None => false
                    end) summary_data).
Proof.
  intros Hmarker Hres.
  destruct (match_loop_spec tfidf_cosine docstrings_data summary_data [])
    as (rs & Hloop & Hall).
  unfold SimilarityChecker.match_symbols in Hres. rewrite Hres in Hloop.
  injection Hloop as ->. symmetry.
  eapply filter_count_Forall2; [|exact Hall].
  intros [key text] r Hr. simpl. symmetry.
  by apply (match_entry_is_exact tfidf_cosine _ _ text).
Qed.

Lemma X22_exact_count_witness :
  ("NO_MATCH" ∉ SimilarityChecker.keys sample_target) ∧
  SimilarityChecker.match_symbols sample_cosine sample_source sample_target
  = Some sample_results ∧
  length (List.filter Analysis.is_exact sample_results) = 1%nat.
Proof.
  assert (H1 : "NO_MATCH" ∉ SimilarityChecker.keys sample_target)
    by (apply (bool_decide_unpack _); vm_compute; exact I).
  assert (H2 : SimilarityChecker.match_symbols sample_cosine sample_source
                 sample_target = Some sample_results) by reflexivity.
  exact (conj H1 (conj H2
    (X22_exact_count sample_cosine sample_source sample_target
       sample_results H1 H2))).
Defined.

(** ** Module identifiers *)

Section ModuleNames.
Import SymbolExtractor.

Lemma endswith_append (a b : string) : endswith (a +:+ b) b = true.
Proof.
  unfold endswith. rewrite length_append.
  replace (String.length a + String.length b - String.length b)%nat
    with (String.length a) by lia.
  rewrite substring_skip_append, String.eqb_refl, andb_true_r.
  apply bool_decide_eq_true. lia.
Qed.

Lemma drop_last_append (a b : string) :
  drop_last (String.length b) (a +:+ b) = a.
Proof.
  unfold drop_last. rewrite length_append.
  replace (String.length a + String.length b - String.length b)%nat
    with (String.length a) by lia.
  apply substring_0_append.
Qed.

Lemma replace_append (old : ascii) (new a b : string) :
  replace old new (a +:+ b) = replace old new a +:+ replace old new b.
Proof.
  induction a as [|c a IH]; [reflexivity|].
  rewrite append_cons. simpl. rewrite IH.
  destruct (Ascii.eqb c old); [by rewrite append_assoc|reflexivity].
Qed.

Lemma chars_append (a b : string) :
  list_ascii_of_string (a +:+ b)
  = list_ascii_of_string a ++ list_ascii_of_string b.
Proof.
  induction a as [|c a IH]; [reflexivity|].
  rewrite append_cons. simpl. by rewrite IH.
Qed.

Lemma replace_no_old (old : ascii) (new s : string) :
  old ∉ list_ascii_of_string new →
  old ∉ list_ascii_of_string (replace old new s).
Proof.
  intros Hnew. induction s as [|c s IH]; simpl; [apply not_elem_of_nil|].
  destruct (Ascii.eqb c old) eqn:E.
  - rewrite chars_append. intros H. apply elem_of_app in H as [H|H]; done.
  - apply Ascii.eqb_neq in E. simpl.
    intros H. apply elem_of_cons in H as [->|H]; done.
Qed.

Lemma substring_0_chars (c : ascii) (s : string) :
  ∀ n, c ∈ list_ascii_of_string (String.substring 0 n s) →
       c ∈ list_ascii_of_string s.
Proof.
  induction s as [|x s IH]; intros n; destruct n as [|n]; simpl;
    try (intros H; by apply elem_of_nil in H).
  intros H. apply elem_of_cons in H as [->|H].
  - apply elem_of_cons. by left.
  - apply elem_of_cons. right. by apply (IH n).
Qed.
End ModuleNames.

(** X23: the module identifier of a package initializer in a directory
    of the project is the dotted path of the directory. *)
Theorem X23_package_initializer
    (os_path_relpath : string → string → string)
    (base_path file_path directory : string) :
  os_path_relpath file_path base_path = directory +:+ "/__init__.py" →
  SymbolExtractor._get_module_name os_path_relpath base_path file_path
  = SymbolExtractor.replace SymbolExtractor.os_sep "." directory.
Proof.
  intros Hrel. unfold SymbolExtractor._get_module_name. rewrite Hrel.
  change (directory +:+ "/__init__.py")
    with (directory +:+ ("/__init__" +:+ ".py")).
  rewrite <- append_assoc, endswith_append.
  rewrite (drop_last_append _ ".py"), replace_append.
  change (SymbolExtractor.replace SymbolExtractor.os_sep "." "/__init__")
    with ".__init__".
  rewrite endswith_append. apply (drop_last_append _ ".__init__").
Qed.

Lemma X23_package_initializer_witness :
  relpath_below "proj/a/b/__init__.py" "proj" = "a/b" +:+ "/__init__.py" ∧
  SymbolExtractor._get_module_name relpath_below "proj"
    "proj/a/b/__init__.py"
  = SymbolExtractor.replace SymbolExtractor.os_sep "." "a/b".
Proof.
  exact (conj eq_refl
    (X23_package_initializer relpath_below "proj" "proj/a/b/__init__.py"
       "a/b" eq_refl)).
Defined.

(** X24: the module identifier of a file [stem.py] is the stem with
    every path separator replaced by a dot, unless that dotted stem ends
    in [.__init__]. *)
Theorem X24_module_file
    (os_path_relpath : string → string → string)
    (base_path file_path stem : string) :
  os_path_relpath file_path base_path = stem +:+ ".py" →
  SymbolExtractor.endswith
    (SymbolExtractor.replace SymbolExtractor.os_sep "." stem) ".__init__"
  = false →
  SymbolExtractor._get_module_name os_path_relpath base_path file_path
  = SymbolExtractor.replace SymbolExtractor.os_sep "." stem.
Proof.
  intros Hrel Hinit. unfold SymbolExtractor._get_module_name.
  rewrite Hrel, endswith_append, (drop_last_append _ ".py"), Hinit.
  reflexivity.
Qed.

Lemma X24_module_file_witness :
  relpath_below "proj/a/b/c.py" "proj" = "a/b/c" +:+ ".py" ∧
  SymbolExtractor._get_module_name relpath_below "proj" "proj/a/b/c.py"
  = "a.b.c".
Proof.
  exact (conj eq_refl
    (X24_module_file relpath_below "proj" "proj/a/b/c.py" "a/b/c" eq_refl
       eq_refl)).
Defined.

(** X25: a module identifier holds no path separator, whatever the
    relative path is. *)
Theorem X25_no_separator_in_module_name
    (os_path_relpath : string → string → string)
    (base_path file_path : string) :
  SymbolExtractor.os_sep
  ∉ list_ascii_of_string
      (SymbolExtractor._get_module_name os_path_relpath base_path
         file_path).
Proof.
  unfold SymbolExtractor._get_module_name.
  assert (Hdot : SymbolExtractor.os_sep ∉ list_ascii_of_string ".").
  { apply (bool_decide_unpack _). vm_compute. exact I. }
  destruct (SymbolExtractor.endswith (SymbolExtractor.replace _ _ _) _).
  - intros H. apply substring_0_chars in H. revert H.
    by apply replace_no_old.
  - by apply replace_no_old.
Qed.

(** ** The loop over the projects *)

Section MainLemmas.
Import Main.
Variable os_path_relpath : string → string → string.
Variable os_path_join : string → string → string.
Variable os_walk : string → list (string * list string).
Variable ast_parse : string → option Module_.
Variable ast_unparse : Module_ → RemoverFiles.unparse_outcome.
Variable astor_to_source : Module_ → option string.

Local Abbreviation paths_of :=
  (λ project_path,
     RemoverFiles.py_paths os_path_join (os_walk project_path)).
Local Abbreviation step :=
  (main_step os_path_relpath os_path_join os_walk ast_parse ast_unparse
     astor_to_source).

Lemma strip_project_other (files : gmap string string)
    (project_path p : string) :
  p ∉ paths_of project_path →
  RemoverFiles.remove_docstrings_from_project os_path_join ast_parse
    ast_unparse astor_to_source files (os_walk project_path) !! p
  = files !! p.
Proof using Type.
  intros Hp. unfold RemoverFiles.remove_docstrings_from_project.
  rewrite strip_walk_flat. by rewrite steps_other.
Qed.

Lemma strip_project_dom (files : gmap string string)
    (project_path : string) :
  dom (RemoverFiles.remove_docstrings_from_project os_path_join ast_parse
         ast_unparse astor_to_source files (os_walk project_path))
  = dom files.
Proof using Type.
  unfold RemoverFiles.remove_docstrings_from_project.
  rewrite strip_walk_flat. apply steps_dom.
Qed.

(** Extraction reads the files of the walk only. *)
Lemma process_paths_local (read read' : string → option Module_)
    (project_path : string) (paths : list string) :
  (∀ p, p ∈ paths → read p = read' p) →
  ∀ st, foldl (process_path os_path_relpath read project_path) st paths
        = foldl (process_path os_path_relpath read' project_path) st paths.
Proof using Type.
  induction paths as [|q paths IH]; intros Hread st; [reflexivity|].
  simpl. rewrite IH.
  - f_equal. unfold process_path, Project.extract_symbols_from_file.
    rewrite (Hread q); [reflexivity|]. apply elem_of_cons. by left.
  - intros p Hp. apply Hread. apply elem_of_cons. by right.
Qed.

Lemma extract_project_local (files files' : gmap string string)
    (project_path : string) :
  (∀ p, p ∈ paths_of project_path → files !! p = files' !! p) →
  Project.extract_symbols_from_project os_path_relpath os_path_join
    (read_and_parse ast_parse files) project_path (os_walk project_path)
  = Project.extract_symbols_from_project os_path_relpath os_path_join
      (read_and_parse ast_parse files') project_path (os_walk project_path).
Proof using Type.
  intros H. unfold Project.extract_symbols_from_project.
  rewrite !walk_from_flat. f_equal. apply process_paths_local.
  intros p Hp. unfold read_and_parse. by rewrite (H p Hp).
Qed.

Lemma main_loop_corpus (files0 : gmap string string)
    (project_paths : list string) :
  NoDup (flat_map paths_of project_paths) →
  ∀ st,
    (∀ p, p ∈ flat_map paths_of project_paths →
          fs st !! p = files0 !! p) →
    all_symbols (foldl step st project_paths)
    = foldl (λ acc project_path,
               Project.extract_symbols_from_project os_path_relpath
                 os_path_join (read_and_parse ast_parse files0)
                 project_path (os_walk project_path) ∪ acc)
            (all_symbols st) project_paths.
Proof using Type.
  induction project_paths as [|pp pps IH]; intros Hnodup st Hst;
    [reflexivity|].
  simpl in Hnodup. apply NoDup_app in Hnodup as (_ & Hdisj & Hrest).
  simpl. rewrite (IH Hrest).
  - simpl. f_equal. f_equal. apply extract_project_local.
    intros p Hp. apply Hst. simpl. apply elem_of_app. by left.
  - intros p Hp. simpl.
    rewrite strip_project_other.
    + apply Hst. simpl. apply elem_of_app. by right.
    + intros Hin. by apply (Hdisj p Hin).
Qed.

Lemma main_loop_dom (project_paths : list string) :
  ∀ st, dom (fs (foldl step st project_paths)) = dom (fs st).
Proof using Type.
  induction project_paths as [|pp pps IH]; intros st; [reflexivity|].
  simpl. rewrite IH. simpl. apply strip_project_dom.
Qed.
End MainLemmas.

(** X26: when no file belongs to two projects, stripping a project never
    changes what is extracted from a later one: the corpus [main] builds
    is the one obtained by extracting every project, in order, from the
    file system as it was before the run. *)
Theorem X26_symbols_come_from_original_files
    (os_path_relpath os_path_join : string → string → string)
    (os_walk : string → list (string * list string))
    (ast_parse : string → option Module_)
    (ast_unparse : Module_ → RemoverFiles.unparse_outcome)
    (astor_to_source : Module_ → option string)
    (project_paths : list string) (files : gmap string string) :
  NoDup (flat_map (λ project_path,
                     RemoverFiles.py_paths os_path_join
                       (os_walk project_path)) project_paths) →
  Main.all_symbols
    (Main.main_loop os_path_relpath os_path_join os_walk ast_parse
       ast_unparse astor_to_source project_paths files)
  = foldl (λ acc project_path,
             Project.extract_symbols_from_project os_path_relpath
               os_path_join (Main.read_and_parse ast_parse files)
               project_path (os_walk project_path) ∪ acc)
          ∅ project_paths.
Proof.
  intros Hnodup. unfold Main.main_loop.
  by rewrite (main_loop_corpus _ _ _ _ _ _ files).
Qed.

(** X27: the run of [main] creates no file and deletes none. *)
Theorem X27_main_keeps_paths
    (os_path_relpath os_path_join : string → string → string)
    (os_walk : string → list (string * list string))
    (ast_parse : string → option Module_)
    (ast_unparse : Module_ → RemoverFiles.unparse_outcome)
    (astor_to_source : Module_ → option string)
    (project_paths : list string) (files : gmap string string) :
  dom (Main.fs
         (Main.main_loop os_path_relpath os_path_join os_walk ast_parse
            ast_unparse astor_to_source project_paths files))
  = dom files.
Proof. unfold Main.main_loop. by rewrite main_loop_dom. Qed.

Lemma X26_symbols_come_from_original_files_witness :
  NoDup (flat_map (λ project_path,
                     RemoverFiles.py_paths sample_join
                       (sample_os_walk project_path)) ["p"; "q"]) ∧
  Main.all_symbols
    (Main.main_loop relpath_below sample_join sample_os_walk sample_parse
       sample_unparse (λ _, None) ["p"; "q"] sample_fs)
  = foldl (λ acc project_path,
             Project.extract_symbols_from_project relpath_below sample_join
               (Main.read_and_parse sample_parse sample_fs) project_path
               (sample_os_walk project_path) ∪ acc)
          ∅ ["p"; "q"].
Proof.
  assert (H : NoDup (flat_map (λ project_path,
                                 RemoverFiles.py_paths sample_join
                                   (sample_os_walk project_path))
                       ["p"; "q"]))
    by (apply (bool_decide_unpack _); vm_compute; exact I).
  exact (conj H
    (X26_symbols_come_from_original_files relpath_below sample_join
       sample_os_walk sample_parse sample_unparse (λ _, None) ["p"; "q"]
       sample_fs H)).
Defined.

(** X28: every key of what extraction returns is the module identifier,
    or the module identifier, a dot and the bare name of a class or
    function of the module: the names of enclosing declarations never
    enter a key. *)
Theorem X28_keys_are_flat (cm : string) (tree : Module_) (k : string) :
  is_Some (SymbolExtractor.extract cm tree !! k) →
  k = cm ∨
  ∃ n, n ∈ flat_map declared_names (body tree) ∧ k = cm +:+ "." +:+ n.
Proof. apply extract_keys. Qed.

Lemma X28_keys_are_flat_witness :
  is_Some (SymbolExtractor.extract "m" method_in_class !! "m.f") ∧
  ("m.f" = "m" ∨
   ∃ n, n ∈ flat_map declared_names (body method_in_class) ∧
        "m.f" = "m" +:+ "." +:+ n).
Proof.
  assert (H : is_Some (SymbolExtractor.extract "m" method_in_class !! "m.f"))
    by (vm_compute; eauto).
  exact (conj H (X28_keys_are_flat "m" method_in_class "m.f" H)).
Defined.
